(** * InsSnap (RetroSnap): the filter/development engine and the photo
      lifecycle, embedded from the TypeScript sources.

    Conventions of the embedding.
    - A JavaScript [number] is an exact rational ([Q]); the arithmetic of the
      source is written with the operators of [Q] in the order of the source.
      Equalities between computed numbers are stated with [==] ([Qeq]).
    - React state is passed explicitly: a handler takes the state it closes
      over and returns the state after its [set...] calls.
    - A JavaScript exception is a value of [result]; [try]/[catch] is
      [try_catch]. *)

From Stdlib Require Import ZArith QArith Qminmax Bool List String Ascii Lia.
From Stdlib Require Import Permutation DecimalString Lqa.
Import ListNotations.

Set Warnings "-register-all".
Local Open Scope string_scope.
Local Open Scope list_scope.
Local Open Scope Q_scope.

Definition number := Q.

(** ** types.ts *)

Inductive FilterType := normal | bw | sepia | warm | cool.

Record PhotoData := mkPhoto {
  id : string;
  url : string;
  timestamp : number;
  x : number;
  y : number;
  rotation : number;
  isDeveloping : bool;
  caption : option string;
  filterType : FilterType
}.

Record Coordinates := mkCoord { cx : number; cy : number }.

(** The fields of a [DOMRect] the sources read. *)
Record DOMRect := mkRect {
  left : number; top : number; width : number; height : number
}.

(** ** components/Polaroid.tsx *)

Module Polaroid.

(** [useState(isDeveloping ? 0 : 100)] *)
Definition initialDevelopState (isDev : bool) : number :=
  if isDev then 0 else 100.

(** The timer callback [setDevelopState(prev => Math.min(prev + 1, 100))],
    scheduled only while [isDeveloping && developState < 100]. *)
Definition tick (isDev : bool) (developState : number) : number :=
  if isDev && negb (Qle_bool 100 developState)
  then Qmin (developState + 1) 100
  else developState.

(** The numbers interpolated into the CSS filter string, in the order of the
    template: blur, brightness, contrast, grayscale, sepia, saturate,
    hue-rotate. *)
Record FilterParams := mkParams {
  blur : number;
  brightness : number;
  contrast : number;
  grayscale : number;
  sepiaAmount : number;
  saturate : number;
  hueRotate : number
}.

(** The [let] block and the [switch] on [filterType]: the values the
    variables hold after the switch. *)
Record Targets := mkTargets {
  targetGrayscale : number;
  targetSepia : number;
  targetContrast : number;
  targetSaturate : number;
  targetHue : number;
  brightnessMod : number
}.

Definition defaults : Targets := mkTargets 0 0 100 100 0 0.

Definition targets (f : FilterType) : Targets :=
  let d := defaults in
  match f with
  | bw => mkTargets 100 (targetSepia d) 120 (targetSaturate d) (targetHue d) (brightnessMod d)
  | sepia => mkTargets (targetGrayscale d) 80 90 (targetSaturate d) (targetHue d) (-5)
  | warm => mkTargets (targetGrayscale d) 30 110 140 (-10) (brightnessMod d)
  | cool => mkTargets (targetGrayscale d) (targetSepia d) 110 90 15 5
  | normal => mkTargets (targetGrayscale d) (targetSepia d) 105 (targetSaturate d) (targetHue d) (brightnessMod d)
  end.

(** The body of the [useMemo] that builds [imageFilterStyle]. *)
Definition imageFilterStyle (developState : number) (f : FilterType) : FilterParams :=
  let progress := developState / 100 in
  let baseBlur := Qmax 0 (10 - (developState / 10)) in
  let baseBrightness := 50 + (developState / 2) in
  let t := targets f in
  let currentGrayscale := 100 - (progress * (100 - targetGrayscale t)) in
  let currentSepia := progress * targetSepia t in
  let currentContrast := 50 + (progress * (targetContrast t - 50)) in
  let currentSaturate := progress * targetSaturate t in
  let currentHue := progress * targetHue t in
  let currentBrightness := baseBrightness + (progress * brightnessMod t) in
  mkParams baseBlur currentBrightness currentContrast currentGrayscale
           currentSepia currentSaturate currentHue.

End Polaroid.

(** ** The rendering model as the specification words it (section 4.3) *)

Module RenderSpec.

Inductive FilterKind := Normal | BlackAndWhite | Sepia | Warm | Cool.

(** The per-filter target table, one row per filter, columns
    contrast, grayscale, sepia, saturate, hue, brightnessMod. *)
Record Row := mkRow {
  t_contrast : Q; t_grayscale : Q; t_sepia : Q;
  t_saturate : Q; t_hue : Q; t_brightnessMod : Q
}.

Definition table (k : FilterKind) : Row :=
  match k with
  | Normal        => mkRow 105 0   0  100 0     0
  | BlackAndWhite => mkRow 120 100 0  100 0     0
  | Sepia         => mkRow 90  0   80 100 0     (-5)
  | Warm          => mkRow 110 0   30 140 (-10) 0
  | Cool          => mkRow 110 0   0  90  15    5
  end.

(** [start + progress/100 * (target - start)] *)
Definition lerp (start target : Q) (progress : Z) : Q :=
  start + (inject_Z progress / 100) * (target - start).

Definition render (progress : Z) (k : FilterKind) : Polaroid.FilterParams :=
  let p := inject_Z progress in
  let row := table k in
  Polaroid.mkParams
    (Qmax 0 (10 - p / 10))
    (50 + p / 2 + (p / 100) * t_brightnessMod row)
    (50 + (p / 100) * (t_contrast row - 50))
    (lerp 100 (t_grayscale row) progress)
    (lerp 0 (t_sepia row) progress)
    (lerp 0 (t_saturate row) progress)
    (lerp 0 (t_hue row) progress).

(** The source's filter names against the specification's. *)
Definition kind_of (f : FilterType) : FilterKind :=
  match f with
  | normal => Normal | bw => BlackAndWhite | sepia => Sepia
  | warm => Warm | cool => Cool
  end.

End RenderSpec.

(** Field-wise numeric equality of two parameter vectors. *)
Definition params_eq (a b : Polaroid.FilterParams) : Prop :=
  Polaroid.blur a == Polaroid.blur b /\
  Polaroid.brightness a == Polaroid.brightness b /\
  Polaroid.contrast a == Polaroid.contrast b /\
  Polaroid.grayscale a == Polaroid.grayscale b /\
  Polaroid.sepiaAmount a == Polaroid.sepiaAmount b /\
  Polaroid.saturate a == Polaroid.saturate b /\
  Polaroid.hueRotate a == Polaroid.hueRotate b.

(** ** The browser: JSON values, exceptions, localStorage *)

Inductive JSON :=
| JNull
| JBool (b : bool)
| JNum (n : number)
| JStr (s : string)
| JArr (items : list JSON)
| JObj (props : list (string * JSON)).

Inductive Error := SyntaxError | QuotaExceededError.

(** A computation that returns or throws. *)
Inductive result (A : Type) :=
| Ok (a : A)
| Throw (e : Error).
Arguments Ok {A} a.
Arguments Throw {A} e.

Definition bind {A B} (r : result A) (k : A -> result B) : result B :=
  match r with
  | Ok a => k a
  | Throw e => Throw e
  end.

Notation "x <- r ;; k" := (bind r (fun x => k))
  (at level 61, r at next level, right associativity).

(** [try { body } catch (e) { handler(e) }] *)
Definition try_catch {A} (body : result A) (handler : Error -> A) : A :=
  match body with
  | Ok a => a
  | Throw e => handler e
  end.

(** [localStorage]: a map from keys to strings. *)
Definition LocalStorage := string -> option string.

Definition emptyStorage : LocalStorage := fun _ => None.

Definition getItem (ls : LocalStorage) (key : string) : option string := ls key.

Definition removeItem (ls : LocalStorage) (key : string) : LocalStorage :=
  fun k => if String.eqb k key then None else ls k.

Definition putItem (ls : LocalStorage) (key value : string) : LocalStorage :=
  fun k => if String.eqb k key then Some value else ls k.

(** What the sources take from the browser and do not define themselves:
    [JSON.parse] (which throws a [SyntaxError] on text that is not JSON),
    [JSON.stringify], and the quota of [localStorage.setItem]. *)
Class Browser := {
  JSON_parse : string -> result JSON;
  JSON_stringify : JSON -> string;
  quota_exceeded : LocalStorage -> string -> string -> bool
}.

Definition setItem `{Browser} (ls : LocalStorage) (key value : string)
  : result LocalStorage :=
  if quota_exceeded ls key value then Throw QuotaExceededError
  else Ok (putItem ls key value).

(** A string in a condition: the empty string is falsy. *)
Definition truthy (s : string) : bool := negb (String.eqb s EmptyString).

(** *** Objects at run time *)

Definition index_key (i : nat) : string :=
  NilEmpty.string_of_uint (Nat.to_uint i).

Fixpoint indexed {A} (f : A -> JSON) (i : nat) (l : list A) : list (string * JSON) :=
  match l with
  | [] => []
  | a :: l' => (index_key i, f a) :: indexed f (S i) l'
  end.

Definition chars (s : string) : list ascii := list_ascii_of_string s.

(** The own enumerable properties that [{...v}] copies: those of an object,
    the indices of an array or of a string, none for the other values. *)
Definition own_props (v : JSON) : list (string * JSON) :=
  match v with
  | JObj props => props
  | JArr items => indexed (fun j => j) 0 items
  | JStr s => indexed (fun c => JStr (String c EmptyString)) 0 (chars s)
  | _ => []
  end.

(** Writing key [k] in an object literal after a spread: an existing key
    keeps its place and takes the new value, a new key goes last. *)
Fixpoint set_prop (props : list (string * JSON)) (k : string) (v : JSON)
  : list (string * JSON) :=
  match props with
  | [] => [(k, v)]
  | (k', v') :: rest =>
      if String.eqb k' k then (k', v) :: rest
      else (k', v') :: set_prop rest k v
  end.

Fixpoint get_prop (props : list (string * JSON)) (k : string) : option JSON :=
  match props with
  | [] => None
  | (k', v') :: rest => if String.eqb k' k then Some v' else get_prop rest k
  end.

Definition filter_name (f : FilterType) : string :=
  match f with
  | normal => "normal" | bw => "bw" | sepia => "sepia"
  | warm => "warm" | cool => "cool"
  end.

(** A [PhotoData] value as the object it is at run time: the keys in the
    order of the object literal of [handleShoot]; the optional [caption],
    which no source file writes, last when present. *)
Definition obj_of_photo (p : PhotoData) : JSON :=
  JObj ([ ("id", JStr (id p));
          ("url", JStr (url p));
          ("timestamp", JNum (timestamp p));
          ("x", JNum (x p));
          ("y", JNum (y p));
          ("rotation", JNum (rotation p));
          ("isDeveloping", JBool (isDeveloping p));
          ("filterType", JStr (filter_name (filterType p))) ]
        ++ match caption p with
           | Some c => [("caption", JStr c)]
           | None => []
           end).

(** ** App.tsx *)

Module App.

Definition STORAGE_KEY : string := "retro-snap-photos".

Inductive NoticeType := success | error.

Record State := mkState {
  photos : list PhotoData;
  draggingPhotoId : option string;
  dragOffset : Coordinates;
  showInstructions : bool;
  notification : option (string * NoticeType)
}.

(** The initial values of the [useState] calls. *)
Definition initial : State := mkState [] None (mkCoord 0 0) true None.

Definition setPhotos (l : list PhotoData) (st : State) : State :=
  mkState l (draggingPhotoId st) (dragOffset st) (showInstructions st) (notification st).
Definition setDraggingPhotoId (d : option string) (st : State) : State :=
  mkState (photos st) d (dragOffset st) (showInstructions st) (notification st).
Definition setDragOffset (c : Coordinates) (st : State) : State :=
  mkState (photos st) (draggingPhotoId st) c (showInstructions st) (notification st).
Definition setShowInstructions (b : bool) (st : State) : State :=
  mkState (photos st) (draggingPhotoId st) (dragOffset st) b (notification st).
Definition setNotification (n : option (string * NoticeType)) (st : State) : State :=
  mkState (photos st) (draggingPhotoId st) (dragOffset st) (showInstructions st) n.

(** [{ ...p, isDeveloping: false }] on a parsed value. *)
Definition developed (p : JSON) : JSON :=
  JObj (set_prop (own_props p) "isDeveloping" (JBool false)).

(** The body of the [try] of the load effect.  [Some l]: [setPhotos(l)] is
    called; [None]: it is not. *)
Definition load_body `{Browser} (ls : LocalStorage) : result (option (list JSON)) :=
  match getItem ls STORAGE_KEY with
  | Some saved =>
      if truthy saved then
        parsed <- JSON_parse saved ;;
        match parsed with
        | JArr items => Ok (Some (map developed items))
        | _ => Ok None
        end
      else Ok None
  | None => Ok None
  end.

(** The load effect: the [catch] logs and goes on. *)
Definition load_effect `{Browser} (ls : LocalStorage) : option (list JSON) :=
  try_catch (load_body ls) (fun _ => None).

(** The wall after mount: the argument of [setPhotos] if it was called, the
    initial [[]] otherwise. *)
Definition wall_after_load `{Browser} (ls : LocalStorage) : list JSON :=
  match load_effect ls with
  | Some l => l
  | None => []
  end.

(** [JSON.stringify(photos)] *)
Definition serialize `{Browser} (l : list PhotoData) : string :=
  JSON_stringify (JArr (map obj_of_photo l)).

(** The auto-save effect, run with the current [photos]. *)
Definition save_effect `{Browser} (l : list PhotoData) (ls : LocalStorage) : LocalStorage :=
  if (0 <? List.length l)%nat then
    try_catch (setItem ls STORAGE_KEY (serialize l)) (fun _ => ls)
  else ls.

(** [showNotification]; the timeout that clears it is [clearNotification]. *)
Definition showNotification (msg : string) (t : NoticeType) (st : State) : State :=
  setNotification (Some (msg, t)) st.
Definition clearNotification (st : State) : State := setNotification None st.

(** [handleClear], after the user answered [confirm] with [true]. *)
Definition handleClear (st : State) (ls : LocalStorage) : State * LocalStorage :=
  (showNotification "Wall cleared." success (setPhotos [] st),
   removeItem ls STORAGE_KEY).

Definition handleDeletePhoto (i : string) (st : State) : State :=
  setPhotos (filter (fun p => negb (String.eqb (id p) i)) (photos st)) st.

Definition handleTakePaper (photo : PhotoData) (rect : DOMRect) (st : State) : State :=
  let newPhoto :=
    mkPhoto (id photo) (url photo) (timestamp photo) (left rect) (top rect)
            (rotation photo) (isDeveloping photo) (caption photo) (filterType photo) in
  let st := setPhotos (photos st ++ [newPhoto]) st in
  let st := setDraggingPhotoId (Some (id newPhoto)) st in
  let st := setDragOffset (mkCoord (width rect / 2) (height rect / 4)) st in
  if showInstructions st then setShowInstructions false st else st.

(** The point of a mouse event, or of the first touch of a touch event. *)
Record Pointer := mkPointer { clientX : number; clientY : number }.

(** [handleMouseDown]; [None] is the early [return] when no photo has the id. *)
Definition handleMouseDown (e : Pointer) (i : string) (st : State) : option State :=
  match find (fun p => String.eqb (id p) i) (photos st) with
  | None => None
  | Some photo =>
      let st := setDraggingPhotoId (Some i) st in
      let st := setDragOffset (mkCoord (clientX e - x photo) (clientY e - y photo)) st in
      let others := filter (fun p => negb (String.eqb (id p) i)) (photos st) in
      Some (setPhotos (others ++ [photo]) st)
  end.

(** [handleMouseMove]; [None] is the early [return] when [draggingPhotoId]
    is falsy ([null] or the empty string). *)
Definition handleMouseMove (e : Pointer) (st : State) : option State :=
  match draggingPhotoId st with
  | None => None
  | Some d =>
      if truthy d then
        Some (setPhotos
                (map (fun photo =>
                        if String.eqb (id photo) d then
                          mkPhoto (id photo) (url photo) (timestamp photo)
                                  (clientX e - cx (dragOffset st))
                                  (clientY e - cy (dragOffset st))
                                  (rotation photo) (isDeveloping photo)
                                  (caption photo) (filterType photo)
                        else photo)
                     (photos st))
                st)
      else None
  end.

Definition handleMouseUp (st : State) : State := setDraggingPhotoId None st.

(** The component and the store it writes to. *)
Record World := mkWorld { ui : State; storage : LocalStorage }.

(** The render that follows a [setPhotos] call: [photos] is a new array, so
    the auto-save effect runs with it. *)
Definition rerender `{Browser} (st : State) (ls : LocalStorage) : World :=
  mkWorld st (save_effect (photos st) ls).

Inductive Event :=
| TakePaper (photo : PhotoData) (rect : DOMRect)
| MouseDown (e : Pointer) (i : string)
| MouseMove (e : Pointer)
| MouseUp
| DeletePhoto (i : string)
| Clear (confirmed : bool)
| NotificationTimeout.

Definition step `{Browser} (w : World) (ev : Event) : World :=
  match ev with
  | TakePaper photo rect => rerender (handleTakePaper photo rect (ui w)) (storage w)
  | MouseDown e i =>
      match handleMouseDown e i (ui w) with
      | Some st => rerender st (storage w)
      | None => w
      end
  | MouseMove e =>
      match handleMouseMove e (ui w) with
      | Some st => rerender st (storage w)
      | None => w
      end
  | MouseUp => mkWorld (handleMouseUp (ui w)) (storage w)
  | DeletePhoto i => rerender (handleDeletePhoto i (ui w)) (storage w)
  | Clear confirmed =>
      if confirmed then
        let (st, ls) := handleClear (ui w) (storage w) in rerender st ls
      else w
  | NotificationTimeout => mkWorld (clearNotification (ui w)) (storage w)
  end.

Definition run `{Browser} (w : World) (evs : list Event) : World :=
  fold_left step evs w.

(** While the photo [d] is dragged with offset [off]. *)
Definition dragging (off : Coordinates) (d : string) (st : State) : Prop :=
  dragOffset st = off /\ draggingPhotoId st = Some d /\
  exists q, In q (photos st) /\ id q = d.

End App.

(** ** hooks/useCamera.ts *)

Module UseCamera.

(** The [<video>] element as the capture reads it. *)
Record Video := mkVideo { videoWidth : number; videoHeight : number }.

Record State := mkState {
  videoRef : option Video;
  error : option string;
  isLoading : bool
}.

(** Before [getUserMedia] settles; [v] is the mounted [<video>] element, if
    any. *)
Definition initial (v : option Video) : State := mkState v None true.

(** [startCamera] once [getUserMedia] has settled.  [Some v]: the stream was
    granted and a mounted element now plays it with the frame size of [v];
    [None]: the request was rejected. *)
Definition startCamera (granted : option Video) (st : State) : State :=
  match granted with
  | Some v =>
      mkState (match videoRef st with Some _ => Some v | None => None end) None false
  | None => mkState (videoRef st) (Some "Camera access denied or unavailable.") false
  end.

End UseCamera.

(** ** components/RetroCamera.tsx *)

Module RetroCamera.

Import UseCamera.

Record State := mkState {
  flashActive : bool;
  ejectingPhoto : option PhotoData;
  isEjected : bool;
  selectedFilter : FilterType
}.

Definition initial : State := mkState false None false normal.

Definition setFlashActive (b : bool) (st : State) : State :=
  mkState b (ejectingPhoto st) (isEjected st) (selectedFilter st).
Definition setEjectingPhoto (p : option PhotoData) (st : State) : State :=
  mkState (flashActive st) p (isEjected st) (selectedFilter st).
Definition setIsEjected (b : bool) (st : State) : State :=
  mkState (flashActive st) (ejectingPhoto st) b (selectedFilter st).
Definition setSelectedFilter (f : FilterType) (st : State) : State :=
  mkState (flashActive st) (ejectingPhoto st) (isEjected st) f.

(** The centre square of the video feed. *)
Record Crop := mkCrop { videoSize : number; startX : number; startY : number }.

Definition crop (video : Video) : Crop :=
  let videoSize := Qmin (videoWidth video) (videoHeight video) in
  let startX := (videoWidth video - videoSize) / 2 in
  let startY := (videoHeight video - videoSize) / 2 in
  mkCrop videoSize startX startY.

Definition outputSize : number := 500.

(** What one call of [handleShoot] reads from the browser: the two readings
    of [Date.now()], [Math.random()], whether [getContext('2d')] returned a
    context, and the data URL of the canvas after the crop was drawn. *)
Record ShootEnv := mkEnv {
  now_id : Z;
  now_timestamp : Z;
  random : number;
  has_context : bool;
  toDataURL : Video -> Crop -> string
}.

(** [Date.now().toString()] *)
Definition toString (ms : Z) : string := NilZero.string_of_int (Z.to_int ms).

Definition is_some {A} (o : option A) : bool :=
  match o with Some _ => true | None => false end.

Definition handleShoot (hook : UseCamera.State) (env : ShootEnv) (st : State) : State :=
  match videoRef hook with
  | None => st
  | Some video =>
      if isLoading hook || is_some (ejectingPhoto st) then st
      else
        let st := setFlashActive true st in
        let c := crop video in
        if has_context env then
          let photoUrl := toDataURL env video c in
          let newPhoto :=
            mkPhoto (toString (now_id env)) photoUrl (inject_Z (now_timestamp env))
                    0 0 ((random env * 4) - 2) true None (selectedFilter st) in
          setIsEjected false (setEjectingPhoto (Some newPhoto) st)
        else st
  end.

(** The two timers [handleShoot] starts. *)
Definition flashTimeout (st : State) : State := setFlashActive false st.
Definition ejectTimeout (st : State) : State := setIsEjected true st.

(** [handleDragStart]: [photoRef] is the bounding rectangle of the mounted
    photo element, [None] when the ref is empty.  The second component is
    the call of [onTakePaper], if any. *)
Definition handleDragStart (photoRef : option DOMRect) (st : State)
  : State * option (PhotoData * DOMRect) :=
  if negb (isEjected st) then (st, None)
  else
    match ejectingPhoto st, photoRef with
    | Some photo, Some rect =>
        (setIsEjected false (setEjectingPhoto None st), Some (photo, rect))
    | _, _ => (st, None)
    end.

(** The states of section 4.4 that the component can be in. *)
Inductive Lifecycle := Idle | Ejecting | ReadyToGrab.

Definition lifecycle (st : State) : Lifecycle :=
  match ejectingPhoto st with
  | None => Idle
  | Some _ => if isEjected st then ReadyToGrab else Ejecting
  end.

Definition pending (st : State) : list PhotoData :=
  match ejectingPhoto st with
  | Some p => [p]
  | None => []
  end.

End RetroCamera.

(** ** The page: the camera mounted in the App with
       [onTakePaper={handleTakePaper}] *)

Module Page.

Record State := mkPage {
  hook : UseCamera.State;
  camera : RetroCamera.State;
  world : App.World
}.

Inductive Event :=
| CameraSettled (granted : option UseCamera.Video)
| SelectFilter (f : FilterType)
| Shoot (env : RetroCamera.ShootEnv)
| FlashTimeout
| EjectTimeout
| DragStart (photoRef : option DOMRect)
| Wall (ev : App.Event).

Definition step `{Browser} (s : State) (ev : Event) : State :=
  match ev with
  | CameraSettled granted =>
      mkPage (UseCamera.startCamera granted (hook s)) (camera s) (world s)
  | SelectFilter f =>
      mkPage (hook s) (RetroCamera.setSelectedFilter f (camera s)) (world s)
  | Shoot env =>
      mkPage (hook s) (RetroCamera.handleShoot (hook s) env (camera s)) (world s)
  | FlashTimeout => mkPage (hook s) (RetroCamera.flashTimeout (camera s)) (world s)
  | EjectTimeout => mkPage (hook s) (RetroCamera.ejectTimeout (camera s)) (world s)
  | DragStart photoRef =>
      match RetroCamera.handleDragStart photoRef (camera s) with
      | (cam, Some (photo, rect)) =>
          mkPage (hook s) cam (App.step (world s) (App.TakePaper photo rect))
      | (cam, None) => mkPage (hook s) cam (world s)
      end
  | Wall ev => mkPage (hook s) (camera s) (App.step (world s) ev)
  end.

Definition run `{Browser} (s : State) (evs : list Event) : State :=
  fold_left step evs s.

End Page.

(** ** Sample values *)

Module Sample.

Definition photoA : PhotoData :=
  mkPhoto "1700000000000" "data:image/jpeg;base64,AAAA" 1700000000000
          15 140 1 true None warm.
Definition photoB : PhotoData :=
  mkPhoto "1700000005000" "data:image/jpeg;base64,BBBB" 1700000005000
          300 80 (-1) true None bw.
Definition photoC : PhotoData :=
  mkPhoto "1700000009000" "data:image/jpeg;base64,CCCC" 1700000009000
          40 60 0 false None normal.

Definition wallABC : App.State :=
  App.setPhotos [photoA; photoB; photoC] App.initial.

Definition pointer : App.Pointer := App.mkPointer 100 200.

(** A [<video>] element that never received a stream: its intrinsic size
    is 0 by 0. *)
Definition blankVideo : UseCamera.Video := UseCamera.mkVideo 0 0.

(** The hook after [getUserMedia] was rejected. *)
Definition hookErrored : UseCamera.State :=
  UseCamera.startCamera None (UseCamera.initial (Some blankVideo)).

Definition env : RetroCamera.ShootEnv :=
  RetroCamera.mkEnv 1700000000000 1700000000000 (3 # 4) true
                    (fun _ _ => "data:image/jpeg;base64,AAAA").

(** The hook playing a granted 1280x720 stream, and the camera right after
    a capture with it. *)
Definition hookReady : UseCamera.State :=
  UseCamera.startCamera (Some (UseCamera.mkVideo 1280 720))
                        (UseCamera.initial (Some blankVideo)).

Definition camEjecting : RetroCamera.State :=
  RetroCamera.handleShoot hookReady env RetroCamera.initial.

(** The rectangle of an ejected photo 170 wide and 242 high, with its
    corner where [photoA] lies. *)
Definition rect : DOMRect := mkRect 15 140 170 242.

End Sample.

(** ** A browser to run the examples on *)

Module DemoBrowser.

Local Open Scope string_scope.

(** The double quote character. *)
Definition dq : string := String (ascii_of_nat 34) EmptyString.

Definition hex_digit (n : nat) : string :=
  String (ascii_of_nat (if (n <? 10)%nat then 48 + n else 87 + n)) EmptyString.

(** The escapes of a JSON string literal. *)
Definition escape_char (c : ascii) : string :=
  let n := nat_of_ascii c in
  if (n =? 34)%nat then "\" ++ dq
  else if (n =? 92)%nat then "\\"
  else if (n =? 8)%nat then "\b"
  else if (n =? 9)%nat then "\t"
  else if (n =? 10)%nat then "\n"
  else if (n =? 12)%nat then "\f"
  else if (n =? 13)%nat then "\r"
  else if (n <? 32)%nat then "\u00" ++ hex_digit (n / 16) ++ hex_digit (n mod 16)
  else String c EmptyString.

Definition quoted (s : string) : string :=
  dq ++ String.concat EmptyString (map escape_char (list_ascii_of_string s)) ++ dq.

Definition decimal (z : Z) : string := NilZero.string_of_int (Z.to_int z).

(** The digits after the decimal point of [r / den], for [0 <= r < den]. *)
Fixpoint frac_digits (fuel : nat) (r den : Z) : string :=
  match fuel with
  | O => EmptyString
  | S fuel' =>
      if (r =? 0)%Z then EmptyString
      else decimal (r * 10 / den) ++ frac_digits fuel' (r * 10 mod den) den
  end.

(** A number in plain decimal notation, as [JSON.stringify] prints the
    numbers of magnitude below 10^21 that have a finite decimal expansion. *)
Definition print_number (n : number) : string :=
  let r := Qred n in
  let a := Z.abs (Qnum r) in
  let den := Zpos (Qden r) in
  let fr := frac_digits (Pos.size_nat (Qden r)) (a mod den) den in
  (if (Qnum r <? 0)%Z then "-" else EmptyString)
  ++ decimal (a / den)
  ++ (if String.eqb fr EmptyString then EmptyString else "." ++ fr).

Fixpoint print (v : JSON) : string :=
  match v with
  | JNull => "null"
  | JBool b => if b then "true" else "false"
  | JNum n => print_number n
  | JStr s => quoted s
  | JArr items => "[" ++ String.concat "," (map print items) ++ "]"
  | JObj props =>
      "{" ++ String.concat ","
                (map (fun kv => quoted (fst kv) ++ ":" ++ print (snd kv)) props)
          ++ "}"
  end.

(** The values whose texts [parse] knows. *)
Definition known : list JSON :=
  [ JArr [obj_of_photo Sample.photoA];
    JArr [obj_of_photo Sample.photoA; obj_of_photo Sample.photoB];
    JArr [];
    JObj [];
    JObj [("photos", JArr [])];
    JNull ].

(** [JSON.parse] cut down to the texts of [known]; any other text is
    refused with a [SyntaxError]. *)
Definition parse (s : string) : result JSON :=
  match find (fun v => String.eqb (print v) s) known with
  | Some v => Ok v
  | None => Throw SyntaxError
  end.

(** A browser whose storage never fills up. *)
Definition demo : Browser :=
  {| JSON_parse := parse;
     JSON_stringify := print;
     quota_exceeded := fun _ _ _ => false |}.

(** A store holding text that is not JSON, and one holding a JSON object. *)
Definition garbageStore : LocalStorage :=
  putItem emptyStorage App.STORAGE_KEY "retro{snap".

Definition objectStore : LocalStorage :=
  putItem emptyStorage App.STORAGE_KEY (print (JObj [("photos", JArr [])])).

End DemoBrowser.

(** ** Reading the persisted records *)

(** The developing flag a stored record carries. *)
Definition stored_flag (o : JSON) : option JSON :=
  get_prop (own_props o) "isDeveloping".

(** A photo as a finished print: [isDeveloping] is [false], the rest is
    kept. *)
Definition finished (p : PhotoData) : PhotoData :=
  mkPhoto (id p) (url p) (timestamp p) (x p) (y p) (rotation p) false
          (caption p) (filterType p).

(** [q] is [p] read back from storage: every field as in [p], except the
    developing flag, which is off. *)
Definition read_back (p q : PhotoData) : Prop :=
  id q = id p /\ url q = url p /\ timestamp q = timestamp p /\
  x q = x p /\ y q = y p /\ rotation q = rotation p /\
  filterType q = filterType p /\ caption q = caption p /\
  isDeveloping q = false.

(** ** What the wall operations leave alone *)

(** [q] is [p] up to its position: every other field is the same. *)
Definition same_print (p q : PhotoData) : Prop :=
  id q = id p /\ url q = url p /\ timestamp q = timestamp p /\
  rotation q = rotation p /\ filterType q = filterType p /\
  isDeveloping q = isDeveloping p /\ caption q = caption p.

(** The photos the camera hands to the wall in a run of events. *)
Definition handed_off (evs : list App.Event) : list PhotoData :=
  flat_map (fun ev => match ev with
                      | App.TakePaper photo _ => [photo]
                      | _ => []
                      end) evs.

(** ** The store against the wall *)



(** A browser whose [localStorage] refuses every write, otherwise like
    [DemoBrowser.demo]. *)
Definition fullBrowser : Browser :=
  {| JSON_parse := DemoBrowser.parse;
     JSON_stringify := DemoBrowser.print;
     quota_exceeded := fun _ _ _ => true |}.

(** A browser whose [localStorage] refuses every write. *)
Definition always_full (B : Browser) : Prop :=
  forall ls key value, @quota_exceeded B ls key value = true.

(** ** The browser's side of a round trip *)

(** The browser's JSON round-trips the value [v]: [JSON.parse] gives back
    [v] from the text [JSON.stringify] makes of it, and that text is not
    empty.  This speaks of the browser and of [v] only. *)
Definition round_trips `{Browser} (v : JSON) : Prop :=
  JSON_parse (JSON_stringify v) = Ok v /\
  truthy (JSON_stringify v) = true.

(** The loaded record [o] reads, key by key, as the photo [p] with the
    developing flag off. *)
Definition record_of (p : PhotoData) (o : JSON) : Prop :=
  get_prop (own_props o) "id" = Some (JStr (id p)) /\
  get_prop (own_props o) "url" = Some (JStr (url p)) /\
  get_prop (own_props o) "timestamp" = Some (JNum (timestamp p)) /\
  get_prop (own_props o) "x" = Some (JNum (x p)) /\
  get_prop (own_props o) "y" = Some (JNum (y p)) /\
  get_prop (own_props o) "rotation" = Some (JNum (rotation p)) /\
  get_prop (own_props o) "filterType" = Some (JStr (filter_name (filterType p))) /\
  get_prop (own_props o) "caption" = option_map JStr (caption p) /\
  get_prop (own_props o) "isDeveloping" = Some (JBool false).

(** * Theorems *)

Lemma kind_of_onto (k : RenderSpec.FilterKind) : exists f, RenderSpec.kind_of f = k.
Proof.
  destruct k;
    [exists normal | exists bw | exists sepia | exists warm | exists cool];
    reflexivity.
Qed.

(** ** The development counter *)

Lemma tick_integer (isDev : bool) (v : number) (k : Z) :
  (0 <= k <= 100)%Z -> v == inject_Z k ->
  exists k', (0 <= k' <= 100)%Z /\ Polaroid.tick isDev v == inject_Z k'.
Proof.
  intros Hk Hv. unfold Polaroid.tick.
  destruct isDev; cbn [andb]; [| exists k; split; assumption].
  destruct (Qle_bool 100 v) eqn:Hle; cbn [negb].
  - exists k. split; assumption.
  - assert (Hlt : (k < 100)%Z).
    { rewrite Zlt_Qlt. rewrite <- Hv. apply Qnot_le_lt. intros Hc.
      apply Qle_bool_iff in Hc. change (inject_Z 100) with 100 in Hc. congruence. }
    exists (k + 1)%Z. split; [lia |].
    rewrite Q.min_l.
    + rewrite Hv, inject_Z_plus. reflexivity.
    + rewrite Hv. change 1 with (inject_Z 1). rewrite <- inject_Z_plus.
      change 100 with (inject_Z 100). rewrite <- Zle_Qle. lia.
Qed.

(** The value of [developState] after any number of timer callbacks is an
    integer of [0,100]. *)
Lemma developState_integer (isDev : bool) (n : nat) :
  exists k, (0 <= k <= 100)%Z /\
            Nat.iter n (Polaroid.tick isDev) (Polaroid.initialDevelopState isDev)
            == inject_Z k.
Proof.
  induction n as [|n (k & Hk & Hv)]; cbn [Nat.iter].
  - destruct isDev; [exists 0%Z | exists 100%Z]; split; try lia; reflexivity.
  - apply (tick_integer isDev _ k Hk Hv).
Qed.

(** ** The filter engine *)

(** C1. For every filter and every integer progress in [0,100], the vector
    computed by [imageFilterStyle] equals, field by field, the vector of the
    specification's reference definition [RenderSpec.render] with the
    specification's target table. *)
Theorem C1_render_refines_spec (f : FilterType) (progress : Z) :
  (0 <= progress <= 100)%Z ->
  params_eq (Polaroid.imageFilterStyle (inject_Z progress) f)
            (RenderSpec.render progress (RenderSpec.kind_of f)).
Proof.
  intros _.
  unfold params_eq, Polaroid.imageFilterStyle, RenderSpec.render, RenderSpec.lerp.
  destruct f; cbn -[Qmax Qplus Qminus Qmult Qdiv inject_Z Qeq];
    repeat split; try reflexivity; field.
Qed.

Lemma C1_render_refines_spec_witness :
  (0 <= 40 <= 100)%Z /\
  params_eq (Polaroid.imageFilterStyle (inject_Z 40) warm)
            (RenderSpec.render 40 RenderSpec.Warm).
Proof.
  split; [lia | apply (C1_render_refines_spec warm 40); lia].
Defined.

(** ** The frame capturer *)

(** C7. For every source frame of width [w] and height [h] the crop of
    [handleShoot] has side [min(w, h)] and offset
    [((w - side)/2, (h - side)/2)]; it is centred, it fits in the frame, and no
    square that fits is larger; for a 1280x720 source the side is 720 and the
    offset is (280, 0). *)
Theorem C7_center_square_crop (w h : number) :
  let c := RetroCamera.crop (UseCamera.mkVideo w h) in
  let c0 := RetroCamera.crop (UseCamera.mkVideo 1280 720) in
  (RetroCamera.videoSize c == Qmin w h /\
   RetroCamera.startX c == (w - Qmin w h) / 2 /\
   RetroCamera.startY c == (h - Qmin w h) / 2) /\
  (RetroCamera.startX c + RetroCamera.videoSize c + RetroCamera.startX c == w /\
   RetroCamera.startY c + RetroCamera.videoSize c + RetroCamera.startY c == h) /\
  (RetroCamera.videoSize c <= w /\ RetroCamera.videoSize c <= h /\
   0 <= RetroCamera.startX c /\ 0 <= RetroCamera.startY c) /\
  (forall s, s <= w -> s <= h -> s <= RetroCamera.videoSize c) /\
  (RetroCamera.videoSize c0 == 720 /\
   RetroCamera.startX c0 == 280 /\ RetroCamera.startY c0 == 0).
Proof.
  cbn zeta. unfold RetroCamera.crop. cbn [RetroCamera.videoSize RetroCamera.startX
    RetroCamera.startY UseCamera.videoWidth UseCamera.videoHeight].
  pose proof (Q.le_min_l w h) as Hw. pose proof (Q.le_min_r w h) as Hh.
  repeat split; try reflexivity; try assumption.
  - field.
  - field.
  - apply Qle_shift_div_l; [reflexivity|]. ring_simplify.
    apply (Qplus_le_l _ _ (Qmin w h)). ring_simplify. exact Hw.
  - apply Qle_shift_div_l; [reflexivity|]. ring_simplify.
    apply (Qplus_le_l _ _ (Qmin w h)). ring_simplify. exact Hh.
  - intros s Hsw Hsh. apply Q.min_glb; assumption.
Qed.

Lemma C7_center_square_crop_witness :
  720 <= 1280 /\ 720 <= 720 /\
  720 <= RetroCamera.videoSize (RetroCamera.crop (UseCamera.mkVideo 1280 720)).
Proof.
  assert (H1 : 720 <= 1280) by (unfold Qle; simpl; lia).
  assert (H2 : 720 <= 720) by (unfold Qle; simpl; lia).
  split; [exact H1 | split; [exact H2 | ]].
  destruct (C7_center_square_crop 1280 720) as (_ & _ & _ & Hmax & _).
  apply Hmax; assumption.
Defined.

(** ** The wall: order and identity of the photos *)

Section WallOrder.

Import App.

Lemma filter_other_ids (i : string) (l : list PhotoData) :
  (forall q, In q l -> id q <> i) ->
  filter (fun p => negb (String.eqb (id p) i)) l = l.
Proof.
  induction l as [|a l IH]; intros Hne; [reflexivity|].
  cbn [filter].
  destruct (String.eqb_spec (id a) i) as [Heq|_].
  - exfalso. apply (Hne a); [left; reflexivity | exact Heq].
  - cbn [negb]. f_equal. apply IH. intros q Hq. apply Hne. right. exact Hq.
Qed.

Lemma unique_id_elsewhere (l1 l2 : list PhotoData) (p : PhotoData) :
  NoDup (map id (l1 ++ p :: l2)) ->
  forall q, In q (l1 ++ l2) -> id q <> id p.
Proof.
  intros Hnd q Hq Heq.
  rewrite map_app in Hnd. cbn [map] in Hnd.
  apply NoDup_remove_2 in Hnd. apply Hnd.
  rewrite <- map_app, <- Heq. apply in_map. exact Hq.
Qed.

Lemma find_member (l1 l2 : list PhotoData) (p : PhotoData) :
  (forall q, In q l1 -> id q <> id p) ->
  find (fun q => String.eqb (id q) (id p)) (l1 ++ p :: l2) = Some p.
Proof.
  induction l1 as [|a l1 IH]; intros Hne; cbn [List.app find].
  - rewrite String.eqb_refl. reflexivity.
  - destruct (String.eqb_spec (id a) (id p)) as [Heq|_].
    + exfalso. apply (Hne a); [left; reflexivity | exact Heq].
    + apply IH. intros q Hq. apply Hne. right. exact Hq.
Qed.

Lemma filter_member (l1 l2 : list PhotoData) (p : PhotoData) :
  (forall q, In q (l1 ++ l2) -> id q <> id p) ->
  filter (fun q => negb (String.eqb (id q) (id p))) (l1 ++ p :: l2) = l1 ++ l2.
Proof.
  intros Hne. rewrite filter_app. cbn [filter].
  rewrite String.eqb_refl. cbn [negb].
  rewrite <- filter_app. apply filter_other_ids. exact Hne.
Qed.

Lemma bring_to_front_split (e : Pointer) (st : State) (l1 l2 : list PhotoData)
      (p : PhotoData) :
  photos st = l1 ++ p :: l2 ->
  NoDup (map id (photos st)) ->
  exists st', handleMouseDown e (id p) st = Some st' /\
              photos st' = l1 ++ l2 ++ [p].
Proof.
  intros Hsplit Hnd. rewrite Hsplit in Hnd.
  pose proof (unique_id_elsewhere l1 l2 p Hnd) as Hne.
  unfold handleMouseDown. rewrite Hsplit.
  rewrite find_member by (intros q Hq; apply Hne, in_or_app; left; exact Hq).
  eexists. split; [reflexivity|].
  cbn [photos setPhotos setDragOffset setDraggingPhotoId].
  rewrite Hsplit, filter_member by exact Hne.
  rewrite app_assoc. reflexivity.
Qed.

End WallOrder.

(** C6. In a wall whose ids are unique, grabbing a member photo [p] returns
    the wall with [p] removed from its place and appended last: the photos
    before and after it keep their relative order, the result is a
    permutation of the wall, and [p] is topmost. *)
Theorem C6_bring_to_front (e : App.Pointer) (st : App.State) (p : PhotoData) :
  NoDup (map id (App.photos st)) ->
  In p (App.photos st) ->
  exists st' l1 l2,
    App.handleMouseDown e (id p) st = Some st' /\
    App.photos st = l1 ++ p :: l2 /\
    App.photos st' = l1 ++ l2 ++ [p] /\
    Permutation (App.photos st) (App.photos st') /\
    last (App.photos st') p = p.
Proof.
  intros Hnd Hin.
  destruct (in_split _ _ Hin) as (l1 & l2 & Hsplit).
  destruct (bring_to_front_split e st l1 l2 p Hsplit Hnd) as (st' & Hdown & Hres).
  exists st', l1, l2. repeat split; try assumption.
  - rewrite Hsplit, Hres.
    apply Permutation_app_head.
    change (p :: l2) with ([p] ++ l2). apply Permutation_app_comm.
  - rewrite Hres, app_assoc. apply last_last.
Qed.

Lemma C6_bring_to_front_witness :
  NoDup (map id (App.photos Sample.wallABC)) /\
  In Sample.photoB (App.photos Sample.wallABC) /\
  exists st' l1 l2,
    App.handleMouseDown Sample.pointer (id Sample.photoB) Sample.wallABC = Some st' /\
    App.photos Sample.wallABC = l1 ++ Sample.photoB :: l2 /\
    App.photos st' = l1 ++ l2 ++ [Sample.photoB] /\
    Permutation (App.photos Sample.wallABC) (App.photos st') /\
    last (App.photos st') Sample.photoB = Sample.photoB.
Proof.
  assert (Hnd : NoDup (map id (App.photos Sample.wallABC))).
  { cbn. repeat constructor; cbn; intuition discriminate. }
  assert (Hin : In Sample.photoB (App.photos Sample.wallABC)).
  { cbn. right. left. reflexivity. }
  split; [exact Hnd | split; [exact Hin | ]].
  exact (C6_bring_to_front Sample.pointer Sample.wallABC Sample.photoB Hnd Hin).
Defined.

(** Grabbing B in [A,B,C] yields [A,C,B]. *)
Example bring_to_front_ABC :
  option_map App.photos
    (App.handleMouseDown Sample.pointer (id Sample.photoB) Sample.wallABC)
  = Some [Sample.photoA; Sample.photoC; Sample.photoB].
Proof. reflexivity. Qed.

Example bring_to_front_distinct (e : App.Pointer) (A B C : PhotoData) :
  NoDup [id A; id B; id C] ->
  option_map App.photos
    (App.handleMouseDown e (id B) (App.setPhotos [A; B; C] App.initial))
  = Some [A; C; B].
Proof.
  intros Hnd.
  destruct (bring_to_front_split e (App.setPhotos [A; B; C] App.initial) [A] [C] B)
    as (st' & Hdown & Hres); [reflexivity | exact Hnd |].
  rewrite Hdown. cbn [option_map]. rewrite Hres. reflexivity.
Qed.

(** Without unique ids the grab drops the other photos that share the id:
    the hypothesis of C6 is needed. *)
Example bring_to_front_shared_id :
  let A' := mkPhoto (id Sample.photoA) (url Sample.photoC) (timestamp Sample.photoC)
                    40 60 0 false None normal in
  option_map App.photos
    (App.handleMouseDown Sample.pointer (id Sample.photoA)
       (App.setPhotos [Sample.photoA; Sample.photoB; A'] App.initial))
  = Some [Sample.photoB; Sample.photoA].
Proof. reflexivity. Qed.

Section WallIdentity.

Context `{Browser}.
Import App.

Lemma same_print_refl (p : PhotoData) : same_print p p.
Proof. unfold same_print. repeat split. Qed.

Lemma rerender_photos (st : State) (ls : LocalStorage) :
  photos (ui (rerender st ls)) = photos st.
Proof. reflexivity. Qed.

Lemma takePaper_photos (photo : PhotoData) (rect : DOMRect) (st : State) :
  photos (handleTakePaper photo rect st)
  = photos st ++ [mkPhoto (id photo) (url photo) (timestamp photo) (left rect)
                          (top rect) (rotation photo) (isDeveloping photo)
                          (caption photo) (filterType photo)].
Proof.
  unfold handleTakePaper. cbn.
  destruct (showInstructions st); reflexivity.
Qed.

(** One event: every photo on the wall afterwards is, up to its position, a
    photo that was on the wall or the photo handed over by the event. *)
Lemma step_same_print (w : World) (ev : Event) (q : PhotoData) :
  In q (photos (ui (step w ev))) ->
  exists p, In p (photos (ui w) ++ handed_off [ev]) /\ same_print p q.
Proof.
  destruct ev as [photo rect | e i | e | | i | confirmed | ]; cbn [step handed_off flat_map];
    rewrite ?app_nil_r.
  - rewrite rerender_photos, takePaper_photos. intros Hin.
    apply in_app_or in Hin. destruct Hin as [Hin | [Heq | []]].
    + exists q. split; [apply in_or_app; left; exact Hin | apply same_print_refl].
    + exists photo. split; [apply in_or_app; right; left; reflexivity |].
      subst q. unfold same_print. cbn. repeat split.
  - unfold handleMouseDown.
    destruct (find _ (photos (ui w))) as [photo|] eqn:Hfind.
    + rewrite rerender_photos. cbn [photos setPhotos setDragOffset setDraggingPhotoId].
      intros Hin. exists q. split; [| apply same_print_refl].
      apply in_app_or in Hin. destruct Hin as [Hin | [Heq | []]].
      * apply filter_In in Hin. apply Hin.
      * subst q. apply find_some in Hfind. apply Hfind.
    + intros Hin. exists q. split; [exact Hin | apply same_print_refl].
  - unfold handleMouseMove.
    destruct (draggingPhotoId (ui w)) as [d|];
      [destruct (truthy d) |];
      try (intros Hin; exists q; split; [exact Hin | apply same_print_refl]).
    rewrite rerender_photos. cbn [photos setPhotos]. intros Hin.
    apply in_map_iff in Hin. destruct Hin as (p & Hq & Hp).
    exists p. split; [exact Hp |].
    destruct (String.eqb (id p) d); subst q;
      [unfold same_print; cbn; repeat split | apply same_print_refl].
  - intros Hin. exists q. split; [exact Hin | apply same_print_refl].
  - rewrite rerender_photos. cbn [handleDeletePhoto photos setPhotos]. intros Hin.
    apply filter_In in Hin. exists q. split; [apply Hin | apply same_print_refl].
  - destruct confirmed; cbn; intros Hin; [destruct Hin |].
    exists q. split; [exact Hin | apply same_print_refl].
  - intros Hin. exists q. split; [exact Hin | apply same_print_refl].
Qed.

Lemma same_print_trans (p q r : PhotoData) :
  same_print p q -> same_print q r -> same_print p r.
Proof.
  unfold same_print. intros (A1 & A2 & A3 & A4 & A5 & A6 & A7) (B1 & B2 & B3 & B4 & B5 & B6 & B7).
  repeat split; congruence.
Qed.

Lemma handed_off_cons (ev : Event) (evs : list Event) :
  handed_off (ev :: evs) = handed_off [ev] ++ handed_off evs.
Proof. unfold handed_off. cbn [flat_map]. rewrite app_nil_r. reflexivity. Qed.

Lemma run_same_print (evs : list Event) :
  forall (w : World) (q : PhotoData),
    In q (photos (ui (run w evs))) ->
    exists p, In p (photos (ui w) ++ handed_off evs) /\ same_print p q.
Proof.
  induction evs as [|ev evs IH]; intros w q Hin.
  - exists q. split; [rewrite app_nil_r; exact Hin | apply same_print_refl].
  - cbn [run fold_left] in Hin.
    destruct (IH (step w ev) q Hin) as (p1 & Hp1 & Hs1).
    rewrite handed_off_cons.
    apply in_app_or in Hp1. destruct Hp1 as [Hp1 | Hp1].
    + destruct (step_same_print w ev p1 Hp1) as (p0 & Hp0 & Hs0).
      exists p0. split; [| exact (same_print_trans _ _ _ Hs0 Hs1)].
      rewrite app_assoc. apply in_or_app. left. exact Hp0.
    + exists p1. split; [| exact Hs1].
      apply in_or_app. right. apply in_or_app. right. exact Hp1.
Qed.

End WallIdentity.

(** C10. Over every run of wall events (hand-off from the camera, grab,
    drag, release, delete, clear), whatever the browser, every photo on the
    wall afterwards is a photo of the wall before or a photo handed over during
    the run, with its id, image payload, timestamp, rotation, filter,
    developing flag and caption unchanged: only [x] and [y] differ. *)
Theorem C10_wall_operations_preserve_print `{Browser}
        (w : App.World) (evs : list App.Event) :
  Forall (fun q => exists p,
              In p (App.photos (App.ui w) ++ handed_off evs) /\ same_print p q)
         (App.photos (App.ui (App.run w evs))).
Proof.
  apply Forall_forall. intros q Hin. apply (run_same_print evs w q Hin).
Qed.

(** ** Hand-off and drag *)

Section DragPosition.

Context `{Browser}.
Import App.

Lemma move_dragging (off : Coordinates) (d : string) (e : Pointer) (w : World) :
  truthy d = true ->
  App.dragging off d (ui w) ->
  App.dragging off d (ui (step w (MouseMove e))) /\
  forall q, In q (photos (ui (step w (MouseMove e)))) -> id q = d ->
            x q = clientX e - cx off /\ y q = clientY e - cy off.
Proof.
  intros Htruthy (Hoff & Hdrag & q0 & Hq0 & Hid0).
  cbn [step]. unfold handleMouseMove. rewrite Hdrag, Htruthy, Hoff.
  rewrite rerender_photos. cbn [rerender ui photos setPhotos dragOffset draggingPhotoId].
  split.
  - split; [exact Hoff | split; [exact Hdrag |]].
    exists (mkPhoto (id q0) (url q0) (timestamp q0) (clientX e - cx off)
                    (clientY e - cy off) (rotation q0) (isDeveloping q0)
                    (caption q0) (filterType q0)).
    split; [| exact Hid0].
    apply in_map_iff. exists q0. split; [| exact Hq0].
    rewrite Hid0, String.eqb_refl. reflexivity.
  - intros q Hin Hid. apply in_map_iff in Hin. destruct Hin as (p & Hq & _).
    destruct (String.eqb_spec (id p) d) as [_ | Hne].
    + subst q. cbn. split; reflexivity.
    + subst q. contradiction.
Qed.

Lemma moves_dragging (off : Coordinates) (d : string) (moves : list Pointer) :
  truthy d = true ->
  forall w, App.dragging off d (ui w) ->
            App.dragging off d (ui (run w (map MouseMove moves))).
Proof.
  intros Htruthy. induction moves as [|e moves IH]; intros w Hw; [exact Hw|].
  cbn [map run fold_left]. apply IH.
  apply (move_dragging off d e w Htruthy Hw).
Qed.

Lemma takePaper_dragging (photo : PhotoData) (rect : DOMRect) (w : World) :
  App.dragging (mkCoord (width rect / 2) (height rect / 4)) (id photo)
           (ui (step w (TakePaper photo rect))).
Proof.
  cbn [step]. unfold dragging.
  rewrite rerender_photos, takePaper_photos.
  unfold handleTakePaper. cbn.
  destruct (showInstructions (ui w)); cbn; repeat split;
    eexists; (split; [apply in_or_app; right; left; reflexivity | reflexivity]).
Qed.

End DragPosition.

(** C8 (as amended). The hand-off places the photo at the corner of its
    element's rectangle, whatever the pointer, sets the drag offset to (half
    the width, a quarter of the height) of the rectangle and starts dragging
    the photo; from the first pointer move on, after any pointer moves ending
    at [e], the photo is on the wall at [e - (width/2, height/4)]. *)
Theorem C8_handoff_drag_position `{Browser}
        (photo : PhotoData) (rect : DOMRect) (w : App.World)
        (moves : list App.Pointer) (e : App.Pointer) :
  id photo <> EmptyString ->
  let w1 := App.step w (App.TakePaper photo rect) in
  let w2 := App.run w1 (map App.MouseMove (moves ++ [e])) in
  App.photos (App.ui w1)
  = App.photos (App.ui w)
    ++ [mkPhoto (id photo) (url photo) (timestamp photo) (left rect) (top rect)
                (rotation photo) (isDeveloping photo) (caption photo)
                (filterType photo)] /\
  App.dragOffset (App.ui w1) = mkCoord (width rect / 2) (height rect / 4) /\
  App.draggingPhotoId (App.ui w1) = Some (id photo) /\
  (exists q, In q (App.photos (App.ui w2)) /\ id q = id photo) /\
  (forall q, In q (App.photos (App.ui w2)) -> id q = id photo ->
             x q = App.clientX e - width rect / 2 /\
             y q = App.clientY e - height rect / 4).
Proof.
  intros Hid w1 w2.
  assert (Htruthy : truthy (id photo) = true).
  { unfold truthy. destruct (String.eqb_spec (id photo) EmptyString); [contradiction | reflexivity]. }
  assert (Hplaced : App.photos (App.ui w1)
                    = App.photos (App.ui w)
                      ++ [mkPhoto (id photo) (url photo) (timestamp photo) (left rect)
                                  (top rect) (rotation photo) (isDeveloping photo)
                                  (caption photo) (filterType photo)]).
  { unfold w1. cbn [App.step]. rewrite rerender_photos. apply takePaper_photos. }
  pose proof (takePaper_dragging photo rect w) as H1. fold w1 in H1.
  pose proof (moves_dragging _ _ moves Htruthy w1 H1) as Hm.
  destruct (move_dragging _ _ e _ Htruthy Hm) as (Hd & Hpos).
  assert (Hw2 : w2 = App.step (App.run w1 (map App.MouseMove moves)) (App.MouseMove e)).
  { unfold w2, App.run. rewrite map_app, fold_left_app. reflexivity. }
  rewrite Hw2.
  destruct H1 as (Hoff & Hdrag & _).
  split; [exact Hplaced | split; [exact Hoff | split; [exact Hdrag | split]]].
  - apply Hd.
  - exact Hpos.
Qed.

(** C8, the claim as stated fails at the grab itself: the grab handler does
    not read the pointer of its event, whether the grab is at (100,200) or
    elsewhere.  With the ejected photo's element at (40,150), 170 wide and 242
    high, the grab leaves the camera idle and the photo on the wall, dragged
    with offset (85, 60.5), at (40,150); that is not (100 - 85, 200 - 60.5). *)
Lemma C8_counterexample :
  let rect := mkRect 40 150 170 242 in
  let s := Page.mkPage Sample.hookReady (RetroCamera.ejectTimeout Sample.camEjecting)
                       (App.mkWorld App.initial emptyStorage) in
  let s' := @Page.step DemoBrowser.demo s (Page.DragStart (Some rect)) in
  RetroCamera.lifecycle (Page.camera s) = RetroCamera.ReadyToGrab /\
  RetroCamera.lifecycle (Page.camera s') = RetroCamera.Idle /\
  App.draggingPhotoId (App.ui (Page.world s')) = Some "1700000000000" /\
  App.dragOffset (App.ui (Page.world s')) = mkCoord (170 / 2) (242 / 4) /\
  map (fun q => (id q, x q, y q)) (App.photos (App.ui (Page.world s')))
  = [("1700000000000", 40, 150)] /\
  ~ 40 == 100 - 170 / 2 /\
  ~ 150 == 200 - 242 / 4.
Proof.
  cbn zeta.
  split; [reflexivity | split; [reflexivity | split; [reflexivity |
    split; [reflexivity | split; [reflexivity | split]]]]];
    intros Heq; vm_compute in Heq; discriminate Heq.
Qed.

(** A photo whose id is the empty string is not moved: [draggingPhotoId]
    is then falsy and [handleMouseMove] returns at once. *)
Example drag_ignores_empty_id (photo : PhotoData) (rect : DOMRect)
        (st : App.State) (e : App.Pointer) :
  id photo = EmptyString ->
  App.handleMouseMove e (App.handleTakePaper photo rect st) = None.
Proof.
  intros Hid. unfold App.handleMouseMove, App.handleTakePaper. cbn.
  destruct (App.showInstructions st); cbn; rewrite Hid; reflexivity.
Qed.

(** ** Capture requests *)

(** C4 (as amended). A capture request changes nothing, so the lifecycle
    state and the pending photo stay as they were, whenever a photo is in
    flight, the source is loading, or no video element is mounted; with a photo
    in flight there is still exactly one pending photo. *)
Theorem C4_capture_rejected (hook : UseCamera.State) (env : RetroCamera.ShootEnv)
        (st : RetroCamera.State) :
  RetroCamera.ejectingPhoto st <> None \/
  UseCamera.isLoading hook = true \/
  UseCamera.videoRef hook = None ->
  RetroCamera.handleShoot hook env st = st /\
  RetroCamera.lifecycle (RetroCamera.handleShoot hook env st) = RetroCamera.lifecycle st /\
  (RetroCamera.ejectingPhoto st <> None ->
   List.length (RetroCamera.pending (RetroCamera.handleShoot hook env st)) = 1%nat).
Proof.
  intros Hguard.
  assert (Hsame : RetroCamera.handleShoot hook env st = st).
  { unfold RetroCamera.handleShoot.
    destruct (UseCamera.videoRef hook) as [video|]; [| reflexivity].
    destruct Hguard as [Hfly | [Hload | Hnone]].
    - destruct (RetroCamera.ejectingPhoto st); [| contradiction].
      cbn. rewrite orb_true_r. reflexivity.
    - rewrite Hload. reflexivity.
    - discriminate. }
  rewrite Hsame. split; [reflexivity | split; [reflexivity |]].
  intros Hfly. unfold RetroCamera.pending.
  destruct (RetroCamera.ejectingPhoto st); [reflexivity | contradiction].
Qed.

Lemma C4_capture_rejected_witness :
  (RetroCamera.ejectingPhoto Sample.camEjecting <> None \/
   UseCamera.isLoading Sample.hookReady = true \/
   UseCamera.videoRef Sample.hookReady = None) /\
  RetroCamera.handleShoot Sample.hookReady Sample.env Sample.camEjecting
  = Sample.camEjecting.
Proof.
  assert (Hfly : RetroCamera.ejectingPhoto Sample.camEjecting <> None \/
                 UseCamera.isLoading Sample.hookReady = true \/
                 UseCamera.videoRef Sample.hookReady = None)
    by (left; discriminate).
  split; [exact Hfly |].
  apply (C4_capture_rejected Sample.hookReady Sample.env Sample.camEjecting Hfly).
Defined.

(** C4, the claim as stated fails: with the camera reporting an error (the
    stream was refused, loading is over, no photo is in flight) a capture
    request is not a no-op; it starts ejecting a photo of the blank frame. *)
Lemma C4_counterexample :
  UseCamera.error Sample.hookErrored <> None /\
  UseCamera.isLoading Sample.hookErrored = false /\
  RetroCamera.pending RetroCamera.initial = [] /\
  RetroCamera.handleShoot Sample.hookErrored Sample.env RetroCamera.initial
    <> RetroCamera.initial /\
  RetroCamera.lifecycle RetroCamera.initial = RetroCamera.Idle /\
  RetroCamera.lifecycle
    (RetroCamera.handleShoot Sample.hookErrored Sample.env RetroCamera.initial)
    = RetroCamera.Ejecting /\
  List.length (RetroCamera.pending
    (RetroCamera.handleShoot Sample.hookErrored Sample.env RetroCamera.initial)) = 1%nat.
Proof.
  repeat split; try discriminate.
Qed.

(** ** Persistence *)

Section Persistence.

Context `{Browser}.
Import App.

Lemma get_set_prop (props : list (string * JSON)) (k : string) (v : JSON) :
  get_prop (set_prop props k v) k = Some v.
Proof.
  induction props as [|[k' v'] rest IH]; cbn [set_prop get_prop].
  - rewrite String.eqb_refl. reflexivity.
  - destruct (String.eqb k' k) eqn:Hk; cbn [get_prop]; rewrite Hk;
      [reflexivity | exact IH].
Qed.

Lemma developed_flag (o : JSON) : stored_flag (developed o) = Some (JBool false).
Proof. unfold stored_flag, developed. cbn [own_props]. apply get_set_prop. Qed.

Lemma developed_photo (p : PhotoData) :
  developed (obj_of_photo p) = obj_of_photo (finished p).
Proof. unfold developed, obj_of_photo. destruct p as [? ? ? ? ? ? ? [c|] ?]; reflexivity. Qed.

Lemma photo_flag (p : PhotoData) :
  stored_flag (obj_of_photo p) = Some (JBool (isDeveloping p)).
Proof. reflexivity. Qed.

Lemma finished_read_back (p : PhotoData) : read_back p (finished p).
Proof. unfold read_back. cbn. repeat split. Qed.

(** The load effect calls [setPhotos] exactly on a truthy text that parses
    to an array. *)
Lemma load_effect_some (ls : LocalStorage) (l : list JSON) :
  load_effect ls = Some l <->
  exists saved items,
    getItem ls STORAGE_KEY = Some saved /\ truthy saved = true /\
    JSON_parse saved = Ok (JArr items) /\ l = map developed items.
Proof.
  unfold load_effect, load_body, try_catch, bind. split.
  - destruct (getItem ls STORAGE_KEY) as [saved|]; [| discriminate].
    destruct (truthy saved) eqn:Ht; [| discriminate].
    destruct (JSON_parse saved) as [v|e] eqn:Hp; [| discriminate].
    destruct v; try discriminate.
    intros Heq. injection Heq as <-. exists saved, items. repeat split; assumption.
  - intros (saved & items & Hget & Ht & Hp & ->).
    rewrite Hget, Ht, Hp. reflexivity.
Qed.

Lemma load_written (ls : LocalStorage) (l : list PhotoData) :
  JSON_parse (serialize l) = Ok (JArr (map obj_of_photo l)) ->
  truthy (serialize l) = true ->
  load_effect (putItem ls STORAGE_KEY (serialize l))
  = Some (map obj_of_photo (map finished l)).
Proof.
  intros Hparse Htruthy. apply load_effect_some.
  exists (serialize l), (map obj_of_photo l).
  split; [| split; [exact Htruthy | split; [exact Hparse |]]].
  - unfold getItem, putItem. rewrite String.eqb_refl. reflexivity.
  - rewrite !map_map. apply map_ext. intros p. symmetry. apply developed_photo.
Qed.

(** The auto-save effect on a wall that is not empty, within the quota. *)
Lemma save_effect_writes (l : list PhotoData) (ls : LocalStorage) :
  l <> [] ->
  quota_exceeded ls STORAGE_KEY (serialize l) = false ->
  save_effect l ls = putItem ls STORAGE_KEY (serialize l).
Proof.
  intros Hne Hquota. unfold save_effect, setItem.
  destruct l as [|p l]; [contradiction |].
  cbn [List.length Nat.ltb Nat.leb]. rewrite Hquota. reflexivity.
Qed.

(** The auto-save effect on the empty wall writes nothing. *)
Lemma save_effect_empty (ls : LocalStorage) : save_effect [] ls = ls.
Proof. reflexivity. Qed.

End Persistence.

(** C9. Whatever the browser and the store: when the stored text makes
    [JSON.parse] throw, the exception is caught and the wall stays empty; when
    it parses to anything but an array, the wall stays empty; and the load
    effect fills the wall exactly when the stored text is non-empty and parses
    to an array. *)
Theorem C9_malformed_payload_ignored `{Browser} (ls : LocalStorage) :
  (forall saved e,
      getItem ls App.STORAGE_KEY = Some saved -> JSON_parse saved = Throw e ->
      (truthy saved = true -> App.load_body ls = Throw e) /\
      App.load_effect ls = None /\ App.wall_after_load ls = []) /\
  (forall saved v,
      getItem ls App.STORAGE_KEY = Some saved -> JSON_parse saved = Ok v ->
      (forall items, v <> JArr items) ->
      App.load_body ls = Ok None /\
      App.load_effect ls = None /\ App.wall_after_load ls = []) /\
  (forall l,
      App.load_effect ls = Some l <->
      exists saved items,
        getItem ls App.STORAGE_KEY = Some saved /\ truthy saved = true /\
        JSON_parse saved = Ok (JArr items) /\ l = map App.developed items).
Proof.
  split; [| split].
  - intros saved e Hget Hparse.
    unfold App.wall_after_load, App.load_effect, App.load_body, try_catch, bind.
    rewrite Hget, Hparse.
    destruct (truthy saved); (split; [intros Ht | split]);
      try reflexivity; discriminate.
  - intros saved v Hget Hparse Hnot.
    unfold App.wall_after_load, App.load_effect, App.load_body, try_catch, bind.
    rewrite Hget, Hparse.
    destruct (truthy saved); [| repeat split].
    destruct v; try (repeat split; reflexivity).
    exfalso. apply (Hnot items). reflexivity.
  - intros l. apply load_effect_some.
Qed.

Lemma C9_malformed_payload_ignored_witness :
  getItem DemoBrowser.garbageStore App.STORAGE_KEY = Some "retro{snap" /\
  @JSON_parse DemoBrowser.demo "retro{snap" = Throw SyntaxError /\
  @App.load_body DemoBrowser.demo DemoBrowser.garbageStore = Throw SyntaxError /\
  @App.wall_after_load DemoBrowser.demo DemoBrowser.garbageStore = [] /\
  @JSON_parse DemoBrowser.demo (DemoBrowser.print (JObj [("photos", JArr [])]))
    = Ok (JObj [("photos", JArr [])]) /\
  @App.wall_after_load DemoBrowser.demo DemoBrowser.objectStore = [].
Proof.
  assert (Hg : getItem DemoBrowser.garbageStore App.STORAGE_KEY = Some "retro{snap")
    by reflexivity.
  assert (Hp : @JSON_parse DemoBrowser.demo "retro{snap" = Throw SyntaxError)
    by reflexivity.
  assert (Ho : @JSON_parse DemoBrowser.demo (DemoBrowser.print (JObj [("photos", JArr [])]))
               = Ok (JObj [("photos", JArr [])])) by reflexivity.
  destruct (@C9_malformed_payload_ignored DemoBrowser.demo DemoBrowser.garbageStore)
    as (Hthrow & _ & _).
  destruct (Hthrow _ _ Hg Hp) as (Hbody & _ & Hwall).
  destruct (@C9_malformed_payload_ignored DemoBrowser.demo DemoBrowser.objectStore)
    as (_ & Hobj & _).
  destruct (Hobj _ _ eq_refl Ho) as (_ & _ & Hwall'); [intros items; discriminate |].
  split; [exact Hg | split; [exact Hp | split; [| split; [exact Hwall | split; [exact Ho | exact Hwall']]]]].
  apply Hbody. reflexivity.
Defined.

Lemma finished_record (p : PhotoData) : record_of p (obj_of_photo (finished p)).
Proof.
  destruct p as [i u t px py r d [c|] f]; unfold record_of; cbn; repeat split.
Qed.

(** C5. For every browser whose JSON round-trips the value of the wall,
    and every store: writing [JSON.stringify(photos)] under the key and
    loading it yields the same photos in the same order; each loaded record
    reads, key by key, the id, image payload, timestamp, position, rotation,
    filter and caption of its photo, and [isDeveloping] off.  The auto-save
    effect stores exactly that text for a wall that is not empty. *)
Theorem C5_persistence_roundtrip `{Browser} (l : list PhotoData) (ls : LocalStorage) :
  round_trips (JArr (map obj_of_photo l)) ->
  exists l',
    Forall2 read_back l l' /\
    App.wall_after_load (putItem ls App.STORAGE_KEY (App.serialize l))
    = map obj_of_photo l' /\
    Forall2 record_of l
            (App.wall_after_load (putItem ls App.STORAGE_KEY (App.serialize l))) /\
    (l <> [] ->
     quota_exceeded ls App.STORAGE_KEY (App.serialize l) = false ->
     App.wall_after_load (App.save_effect l ls) = map obj_of_photo l').
Proof.
  intros (Hparse & Htruthy). exists (map finished l).
  assert (Hload : App.wall_after_load (putItem ls App.STORAGE_KEY (App.serialize l))
                  = map obj_of_photo (map finished l)).
  { unfold App.wall_after_load. rewrite (load_written ls l Hparse Htruthy). reflexivity. }
  split; [| split; [exact Hload | split]].
  - clear. induction l as [|p l IH]; cbn [map]; constructor;
      [apply finished_read_back | exact IH].
  - rewrite Hload. clear. induction l as [|p l IH]; cbn [map]; constructor;
      [apply finished_record | exact IH].
  - intros Hne Hquota. rewrite (save_effect_writes l ls Hne Hquota). exact Hload.
Qed.

Lemma C5_persistence_roundtrip_witness :
  @round_trips DemoBrowser.demo
     (JArr (map obj_of_photo [Sample.photoA; Sample.photoB])) /\
  exists l',
    Forall2 read_back [Sample.photoA; Sample.photoB] l' /\
    @App.wall_after_load DemoBrowser.demo
       (putItem emptyStorage App.STORAGE_KEY
                (@App.serialize DemoBrowser.demo [Sample.photoA; Sample.photoB]))
    = map obj_of_photo l' /\
    Forall2 record_of [Sample.photoA; Sample.photoB]
       (@App.wall_after_load DemoBrowser.demo
          (putItem emptyStorage App.STORAGE_KEY
                   (@App.serialize DemoBrowser.demo [Sample.photoA; Sample.photoB]))).
Proof.
  assert (Hrt : @round_trips DemoBrowser.demo
                  (JArr (map obj_of_photo [Sample.photoA; Sample.photoB])))
    by (split; vm_compute; reflexivity).
  split; [exact Hrt |].
  destruct (@C5_persistence_roundtrip DemoBrowser.demo
              [Sample.photoA; Sample.photoB] emptyStorage Hrt)
    as (l' & Hrb & Hload & Hrec & _).
  exists l'. split; [exact Hrb | split; [exact Hload | exact Hrec]].
Defined.

(** The round trip of two photos, evaluated. *)
Example roundtrip_two_photos :
  @App.wall_after_load DemoBrowser.demo
     (@App.save_effect DemoBrowser.demo [Sample.photoA; Sample.photoB] emptyStorage)
  = [obj_of_photo (finished Sample.photoA); obj_of_photo (finished Sample.photoB)].
Proof. vm_compute. reflexivity. Qed.

(** C3 (as amended). A snapshot is written with the developing flag each
    photo has in memory; it is on reading that the flag is normalized: every
    record of the wall after load has [isDeveloping] off, whatever the store
    held. *)
Theorem C3_normalized_on_load `{Browser} (ls : LocalStorage) (l : list PhotoData) :
  (forall o, In o (App.wall_after_load ls) -> stored_flag o = Some (JBool false)) /\
  (forall p, In p l -> stored_flag (obj_of_photo p) = Some (JBool (isDeveloping p))) /\
  (l <> [] ->
   quota_exceeded ls App.STORAGE_KEY (App.serialize l) = false ->
   getItem (App.save_effect l ls) App.STORAGE_KEY
   = Some (JSON_stringify (JArr (map obj_of_photo l)))).
Proof.
  split; [| split].
  - intros o. unfold App.wall_after_load.
    destruct (App.load_effect ls) as [l0|] eqn:Hload; [| intros []].
    apply load_effect_some in Hload.
    destruct Hload as (saved & items & _ & _ & _ & ->).
    intros Hin. apply in_map_iff in Hin. destruct Hin as (o0 & <- & _).
    apply developed_flag.
  - intros p _. apply photo_flag.
  - intros Hne Hquota. rewrite (save_effect_writes l ls Hne Hquota).
    unfold getItem, putItem. rewrite String.eqb_refl. reflexivity.
Qed.

Lemma C3_normalized_on_load_witness :
  In (obj_of_photo (finished Sample.photoA))
     (@App.wall_after_load DemoBrowser.demo
        (@App.save_effect DemoBrowser.demo [Sample.photoA] emptyStorage)) /\
  stored_flag (obj_of_photo (finished Sample.photoA)) = Some (JBool false) /\
  In Sample.photoA [Sample.photoA] /\
  stored_flag (obj_of_photo Sample.photoA) = Some (JBool true).
Proof.
  destruct (@C3_normalized_on_load DemoBrowser.demo
              (@App.save_effect DemoBrowser.demo [Sample.photoA] emptyStorage)
              [Sample.photoA]) as (Hload & Hmem & _).
  assert (Hin : In (obj_of_photo (finished Sample.photoA))
                   (@App.wall_after_load DemoBrowser.demo
                      (@App.save_effect DemoBrowser.demo [Sample.photoA] emptyStorage)))
    by (vm_compute; left; reflexivity).
  assert (Hin' : In Sample.photoA [Sample.photoA]) by (left; reflexivity).
  split; [exact Hin | split; [exact (Hload _ Hin) | split; [exact Hin' | exact (Hmem _ Hin')]]].
Defined.

(** C3, the claim as stated fails: the photo handed to an empty wall is
    still developing, and the snapshot written right after holds its record
    with the developing flag on. *)
Lemma C3_counterexample :
  let w1 := @App.step DemoBrowser.demo (App.mkWorld App.initial emptyStorage)
                      (App.TakePaper Sample.photoA Sample.rect) in
  let text := DemoBrowser.print (JArr [obj_of_photo Sample.photoA]) in
  App.photos (App.ui w1) = [Sample.photoA] /\
  getItem (App.storage w1) App.STORAGE_KEY = Some text /\
  @JSON_parse DemoBrowser.demo text = Ok (JArr [obj_of_photo Sample.photoA]) /\
  stored_flag (obj_of_photo Sample.photoA) = Some (JBool true) /\
  stored_flag (obj_of_photo Sample.photoA) <> Some (JBool false).
Proof.
  cbn zeta. split; [reflexivity |].
  split; [vm_compute; reflexivity |].
  split; [vm_compute; reflexivity |].
  split; [reflexivity | discriminate].
Qed.

(** ** Deleting the last photo *)

Section Deletion.

Context `{Browser}.
Import App.


(** Deleting the only photo empties the wall and leaves the store as it
    was. *)
Lemma delete_last_keeps_storage (w : World) (A : PhotoData) :
  photos (ui w) = [A] ->
  photos (ui (step w (DeletePhoto (id A)))) = [] /\
  storage (step w (DeletePhoto (id A))) = storage w.
Proof.
  intros Hwall. cbn [step rerender ui storage handleDeletePhoto photos setPhotos].
  rewrite Hwall. cbn [filter]. rewrite String.eqb_refl. cbn [negb].
  split; reflexivity.
Qed.

(** Clearing the wall removes the stored snapshot. *)
Lemma clear_removes_snapshot (w : World) :
  photos (ui (step w (Clear true))) = [] /\
  getItem (storage (step w (Clear true))) STORAGE_KEY = None.
Proof.
  cbn [step handleClear rerender ui storage]. split; [reflexivity |].
  cbn [photos showNotification setNotification setPhotos save_effect List.length Nat.ltb Nat.leb].
  unfold getItem, removeItem. rewrite String.eqb_refl. reflexivity.
Qed.

End Deletion.

(** C2, at the failing input: photo A is handed to an empty wall and
    persisted; deleting A empties the wall but the store still holds the
    snapshot with A, which a reload puts back on the wall; clearing the wall
    instead removes the snapshot. *)
Theorem C2_delete_last_photo_keeps_snapshot :
  let w0 := App.mkWorld App.initial emptyStorage in
  let w1 := @App.step DemoBrowser.demo w0 (App.TakePaper Sample.photoA Sample.rect) in
  let w2 := @App.step DemoBrowser.demo w1 (App.DeletePhoto (id Sample.photoA)) in
  let w3 := @App.step DemoBrowser.demo w1 (App.Clear true) in
  (App.photos (App.ui w1) = [Sample.photoA] /\
   getItem (App.storage w1) App.STORAGE_KEY
   = Some (@App.serialize DemoBrowser.demo [Sample.photoA])) /\
  (App.photos (App.ui w2) = [] /\
   getItem (App.storage w2) App.STORAGE_KEY
   = Some (@App.serialize DemoBrowser.demo [Sample.photoA]) /\
   @App.wall_after_load DemoBrowser.demo (App.storage w2)
   = [obj_of_photo (finished Sample.photoA)]) /\
  (App.photos (App.ui w3) = [] /\
   getItem (App.storage w3) App.STORAGE_KEY = None /\
   @App.wall_after_load DemoBrowser.demo (App.storage w3) = []).
Proof.
  cbn zeta. repeat split; vm_compute; reflexivity.
Qed.

Lemma C8_handoff_drag_position_witness :
  id Sample.photoA <> EmptyString /\
  let w1 := @App.step DemoBrowser.demo (App.mkWorld App.initial emptyStorage)
                      (App.TakePaper Sample.photoA Sample.rect) in
  let w2 := @App.run DemoBrowser.demo w1 (map App.MouseMove ([] ++ [Sample.pointer])) in
  App.photos (App.ui w1) = [Sample.photoA] /\
  (exists q, In q (App.photos (App.ui w2)) /\ id q = id Sample.photoA) /\
  (forall q, In q (App.photos (App.ui w2)) -> id q = id Sample.photoA ->
             x q = 100 - 170 / 2 /\ y q = 200 - 242 / 4) /\
  100 - 170 / 2 == 15.
Proof.
  assert (Hid : id Sample.photoA <> EmptyString) by discriminate.
  split; [exact Hid |].
  destruct (@C8_handoff_drag_position DemoBrowser.demo Sample.photoA Sample.rect
              (App.mkWorld App.initial emptyStorage) [] Sample.pointer Hid)
    as (Hplaced & _ & _ & Hex & Hpos).
  split; [exact Hplaced | split; [exact Hex | split; [exact Hpos | reflexivity]]].
Defined.

(** ** End to end: capture, eject, grab, drag *)

Lemma toString_nonempty (ms : Z) : RetroCamera.toString ms <> EmptyString.
Proof.
  unfold RetroCamera.toString, NilZero.string_of_int, NilZero.string_of_uint.
  destruct (Z.to_int ms) as [d|d]; [destruct d |]; discriminate.
Qed.

(** From an idle camera with a playing video: a capture, the eject delay, a
    grab of the ejected photo and a pointer move to [e] leave the camera idle
    and the new photo on top of the wall at [e - (width/2, height/4)], with the
    filter selected at capture and still developing.  A grab before the eject
    delay does nothing. *)
Lemma capture_grab_drag `{Browser} (s : Page.State) (video : UseCamera.Video)
      (env : RetroCamera.ShootEnv) (rect : DOMRect) (e : App.Pointer) :
  UseCamera.videoRef (Page.hook s) = Some video ->
  UseCamera.isLoading (Page.hook s) = false ->
  RetroCamera.ejectingPhoto (Page.camera s) = None ->
  RetroCamera.has_context env = true ->
  (forall q, In q (App.photos (App.ui (Page.world s))) ->
             id q <> RetroCamera.toString (RetroCamera.now_id env)) ->
  let s1 := Page.step s (Page.Shoot env) in
  let s' := Page.run s [Page.Shoot env; Page.EjectTimeout;
                        Page.DragStart (Some rect); Page.Wall (App.MouseMove e)] in
  Page.step s1 (Page.DragStart (Some rect)) = s1 /\
  RetroCamera.lifecycle (Page.camera s1) = RetroCamera.Ejecting /\
  RetroCamera.lifecycle (Page.camera s') = RetroCamera.Idle /\
  App.photos (App.ui (Page.world s'))
  = App.photos (App.ui (Page.world s))
    ++ [mkPhoto (RetroCamera.toString (RetroCamera.now_id env))
                (RetroCamera.toDataURL env video (RetroCamera.crop video))
                (inject_Z (RetroCamera.now_timestamp env))
                (App.clientX e - width rect / 2)
                (App.clientY e - height rect / 4)
                (RetroCamera.random env * 4 - 2) true None
                (RetroCamera.selectedFilter (Page.camera s))].
Proof.
  intros Hvideo Hload Hidle Hctx Hfresh.
  destruct s as [hook cam w]. cbn [Page.hook Page.camera Page.world] in *.
  cbn [Page.run fold_left Page.step Page.hook Page.camera Page.world].
  unfold RetroCamera.handleShoot. rewrite Hvideo, Hload, Hidle, Hctx.
  cbn [orb RetroCamera.is_some RetroCamera.handleDragStart RetroCamera.ejectTimeout
       RetroCamera.setIsEjected RetroCamera.setEjectingPhoto RetroCamera.setFlashActive
       RetroCamera.isEjected RetroCamera.ejectingPhoto RetroCamera.flashActive
       RetroCamera.selectedFilter negb Page.hook Page.camera Page.world
       RetroCamera.lifecycle].
  split; [reflexivity | split; [reflexivity | split; [reflexivity |]]].
  cbn [App.step]. unfold App.handleMouseMove.
  set (photo := mkPhoto _ _ _ 0 0 _ _ _ _).
  set (w1 := App.rerender _ _).
  assert (Hdrag : App.draggingPhotoId (App.ui w1) = Some (id photo)).
  { unfold w1, App.handleTakePaper. cbn.
    destruct (App.showInstructions (App.ui w)); reflexivity. }
  assert (Hoff : App.dragOffset (App.ui w1) = mkCoord (width rect / 2) (height rect / 4)).
  { unfold w1, App.handleTakePaper. cbn.
    destruct (App.showInstructions (App.ui w)); reflexivity. }
  assert (Hwall : App.photos (App.ui w1)
                  = App.photos (App.ui w)
                    ++ [mkPhoto (id photo) (url photo) (timestamp photo) (left rect)
                                (top rect) (rotation photo) (isDeveloping photo)
                                (caption photo) (filterType photo)]).
  { unfold w1. rewrite rerender_photos. apply takePaper_photos. }
  rewrite Hdrag.
  assert (Htruthy : truthy (id photo) = true).
  { unfold truthy, photo. cbn [id].
    destruct (String.eqb_spec (RetroCamera.toString (RetroCamera.now_id env)) EmptyString)
      as [Hempty|_]; [destruct (toString_nonempty _ Hempty) | reflexivity]. }
  rewrite Htruthy, rerender_photos. cbn [App.photos App.setPhotos].
  rewrite Hwall, Hoff, map_app. cbn [map cx cy id]. rewrite String.eqb_refl.
  f_equal.
  rewrite <- (map_id (App.photos (App.ui w))) at 2.
  apply map_ext_in. intros q Hq.
  destruct (String.eqb_spec (id q) (id photo)) as [Heq|_]; [| reflexivity].
  destruct (Hfresh q Hq Heq).
Qed.

(** The same on the sample camera: the photo lands at x = 100 - 85. *)
Example capture_grab_drag_sample :
  let s := Page.mkPage Sample.hookReady RetroCamera.initial
                       (App.mkWorld App.initial emptyStorage) in
  let s' := @Page.run DemoBrowser.demo s
              [Page.Shoot Sample.env; Page.EjectTimeout;
               Page.DragStart (Some Sample.rect); Page.Wall (App.MouseMove Sample.pointer)] in
  map (fun q => (id q, x q, y q)) (App.photos (App.ui (Page.world s')))
  = [("1700000000000", 100 - 170 / 2, 200 - 242 / 4)] /\
  100 - 170 / 2 == 15 /\ 200 - 242 / 4 == 279 / 2.
Proof. cbn zeta. split; [reflexivity | split; reflexivity]. Qed.

(** * Further properties of the sources *)

(** Linear arithmetic over the rationals, with the divisions by the
    constants of the sources turned into products. *)
Ltac qlra :=
  unfold Qdiv in *;
  change (/ 100) with (1 # 100) in *;
  change (/ 10) with (1 # 10) in *;
  change (/ 2) with (1 # 2) in *;
  change (/ 4) with (1 # 4) in *;
  lra.

(** ** Polaroid.tsx: the development counter and the style *)

Lemma tick_value (v : number) (k : Z) :
  (0 <= k <= 100)%Z -> v == inject_Z k ->
  Polaroid.tick true v == inject_Z (Z.min (k + 1) 100).
Proof.
  intros Hk Hv. unfold Polaroid.tick. cbn [andb].
  destruct (Qle_bool 100 v) eqn:Hle; cbn [negb].
  - apply Qle_bool_iff in Hle. rewrite Hv in Hle.
    change 100 with (inject_Z 100) in Hle. rewrite <- Zle_Qle in Hle.
    replace (Z.min (k + 1) 100) with k by lia. exact Hv.
  - assert (Hlt : (k < 100)%Z).
    { rewrite Zlt_Qlt. rewrite <- Hv. apply Qnot_le_lt. intros Hc.
      apply Qle_bool_iff in Hc. change (inject_Z 100) with 100 in Hc. congruence. }
    replace (Z.min (k + 1) 100) with (k + 1)%Z by lia.
    rewrite Q.min_l.
    + rewrite Hv, inject_Z_plus. reflexivity.
    + rewrite Hv. change 1 with (inject_Z 1). rewrite <- inject_Z_plus.
      change 100 with (inject_Z 100). rewrite <- Zle_Qle. lia.
Qed.

(** X1. After [n] timer callbacks a developing photo is at progress
    [min(n, 100)]: one unit per callback, saturating at 100; a photo that is
    not developing is at 100 from the start and stays there. *)
Theorem X1_development_counter (n : nat) :
  Nat.iter n (Polaroid.tick true) (Polaroid.initialDevelopState true)
  == inject_Z (Z.min (Z.of_nat n) 100) /\
  Nat.iter n (Polaroid.tick false) (Polaroid.initialDevelopState false) = 100.
Proof.
  split.
  - induction n as [|n IH].
    + reflexivity.
    + rewrite Nat.iter_succ.
      assert (Hk : (0 <= Z.min (Z.of_nat n) 100 <= 100)%Z) by lia.
      apply (Qeq_trans _ _ _ (tick_value _ _ Hk IH)).
      replace (Z.min (Z.min (Z.of_nat n) 100 + 1) 100)
        with (Z.min (Z.of_nat (S n)) 100) by lia.
      reflexivity.
  - induction n as [|n IH]; [reflexivity |].
    rewrite Nat.iter_succ, IH. reflexivity.
Qed.

(** X2. A fully developed print (progress 100, which is where a photo that
    is not developing starts) has no blur, brightness 100 plus the filter's
    modifier, and exactly the filter's target contrast, grayscale, sepia,
    saturation and hue. *)
Theorem X2_developed_print_has_targets (f : FilterType) :
  params_eq
    (Polaroid.imageFilterStyle (Polaroid.initialDevelopState false) f)
    (Polaroid.mkParams 0
       (100 + Polaroid.brightnessMod (Polaroid.targets f))
       (Polaroid.targetContrast (Polaroid.targets f))
       (Polaroid.targetGrayscale (Polaroid.targets f))
       (Polaroid.targetSepia (Polaroid.targets f))
       (Polaroid.targetSaturate (Polaroid.targets f))
       (Polaroid.targetHue (Polaroid.targets f))).
Proof. destruct f; unfold params_eq; cbn; repeat split. Qed.

(** X3. An undeveloped print (progress 0, where a developing photo starts)
    looks the same under every filter: blur 10, brightness 50, contrast 50,
    grayscale 100, and no sepia, saturation or hue rotation. *)
Theorem X3_undeveloped_print_ignores_filter (f : FilterType) :
  params_eq
    (Polaroid.imageFilterStyle (Polaroid.initialDevelopState true) f)
    (Polaroid.mkParams 10 50 50 100 0 0 0).
Proof. destruct f; unfold params_eq; cbn; repeat split. Qed.

(** X4. For every progress in [0,100], integer or not, and every filter,
    the amounts of the CSS filter stay in range: blur in [0,10], brightness in
    [50,105], contrast in [50,120], grayscale in [0,100], sepia in [0,80],
    saturate in [0,140], hue in [-10,15]; so no amount that CSS requires to be
    non-negative is ever negative. *)
Theorem X4_style_in_range (developState : number) (f : FilterType) :
  0 <= developState -> developState <= 100 ->
  let s := Polaroid.imageFilterStyle developState f in
  (0 <= Polaroid.blur s /\ Polaroid.blur s <= 10) /\
  (50 <= Polaroid.brightness s /\ Polaroid.brightness s <= 105) /\
  (50 <= Polaroid.contrast s /\ Polaroid.contrast s <= 120) /\
  (0 <= Polaroid.grayscale s /\ Polaroid.grayscale s <= 100) /\
  (0 <= Polaroid.sepiaAmount s /\ Polaroid.sepiaAmount s <= 80) /\
  (0 <= Polaroid.saturate s /\ Polaroid.saturate s <= 140) /\
  (-10 <= Polaroid.hueRotate s /\ Polaroid.hueRotate s <= 15).
Proof.
  intros H0 H100. cbn zeta. unfold Polaroid.imageFilterStyle.
  cbn [Polaroid.blur Polaroid.brightness Polaroid.contrast Polaroid.grayscale
       Polaroid.sepiaAmount Polaroid.saturate Polaroid.hueRotate].
  split.
  - destruct (Q.max_spec 0 (10 - developState / 10)) as [[H1 H2]|[H1 H2]];
      rewrite H2; split; qlra.
  - destruct f; cbn [Polaroid.targets Polaroid.defaults Polaroid.targetGrayscale
      Polaroid.targetSepia Polaroid.targetContrast Polaroid.targetSaturate
      Polaroid.targetHue Polaroid.brightnessMod];
      repeat split; qlra.
Qed.

Lemma X4_style_in_range_witness :
  0 <= 37 /\ 37 <= 100 /\
  0 <= Polaroid.sepiaAmount (Polaroid.imageFilterStyle 37 sepia) /\
  Polaroid.contrast (Polaroid.imageFilterStyle 37 sepia) <= 120.
Proof.
  assert (H0 : 0 <= 37) by (unfold Qle; simpl; lia).
  assert (H1 : 37 <= 100) by (unfold Qle; simpl; lia).
  destruct (X4_style_in_range 37 sepia H0 H1) as (_ & _ & (_ & Hc) & _ & (Hs & _) & _).
  split; [exact H0 | split; [exact H1 | split; [exact Hs | exact Hc]]].
Defined.

(** X5. Development is monotone: with more progress the blur never grows
    and the brightness never drops, whatever the filter. *)
Theorem X5_development_monotone (d1 d2 : number) (f : FilterType) :
  d1 <= d2 ->
  Polaroid.blur (Polaroid.imageFilterStyle d2 f)
  <= Polaroid.blur (Polaroid.imageFilterStyle d1 f) /\
  Polaroid.brightness (Polaroid.imageFilterStyle d1 f)
  <= Polaroid.brightness (Polaroid.imageFilterStyle d2 f).
Proof.
  intros Hle. unfold Polaroid.imageFilterStyle.
  cbn [Polaroid.blur Polaroid.brightness]. split.
  - destruct (Q.max_spec 0 (10 - d1 / 10)) as [[H1 H2]|[H1 H2]]; rewrite H2;
      destruct (Q.max_spec 0 (10 - d2 / 10)) as [[H3 H4]|[H3 H4]]; rewrite H4;
      qlra.
  - destruct f; cbn [Polaroid.targets Polaroid.defaults Polaroid.brightnessMod]; qlra.
Qed.

Lemma X5_development_monotone_witness :
  20 <= 60 /\
  Polaroid.blur (Polaroid.imageFilterStyle 60 cool)
  <= Polaroid.blur (Polaroid.imageFilterStyle 20 cool).
Proof.
  assert (H : 20 <= 60) by (unfold Qle; simpl; lia).
  split; [exact H | exact (proj1 (X5_development_monotone 20 60 cool H))].
Defined.

(** ** RetroCamera.tsx: capture and hand-off *)

Lemma shoot_with_pending (hook : UseCamera.State) (env : RetroCamera.ShootEnv)
      (st : RetroCamera.State) (p : PhotoData) :
  RetroCamera.ejectingPhoto st = Some p ->
  RetroCamera.handleShoot hook env st = st.
Proof.
  intros Hp. unfold RetroCamera.handleShoot.
  destruct (UseCamera.videoRef hook); [| reflexivity].
  rewrite Hp. cbn [RetroCamera.is_some]. rewrite orb_true_r. reflexivity.
Qed.

(** X6. A capture ejects a photo exactly when a video element is mounted,
    the hook is not loading, no photo is pending and the canvas gives a 2D
    context.  The photo then has the decimal clock reading as id, the data URL
    of the cropped frame, position (0,0), the selected filter, and is
    developing; the flash is on and the photo is not yet grabbable.  Without a
    context only the flash fires.  In every other case the pending photo is
    what it was. *)
Theorem X6_capture_accepted_iff (hook : UseCamera.State) (env : RetroCamera.ShootEnv)
        (st : RetroCamera.State) :
  (forall video,
      UseCamera.videoRef hook = Some video ->
      UseCamera.isLoading hook = false ->
      RetroCamera.ejectingPhoto st = None ->
      (RetroCamera.has_context env = true ->
       RetroCamera.handleShoot hook env st
       = RetroCamera.mkState true
           (Some (mkPhoto (RetroCamera.toString (RetroCamera.now_id env))
                          (RetroCamera.toDataURL env video (RetroCamera.crop video))
                          (inject_Z (RetroCamera.now_timestamp env))
                          0 0 (RetroCamera.random env * 4 - 2) true None
                          (RetroCamera.selectedFilter st)))
           false (RetroCamera.selectedFilter st)) /\
      (RetroCamera.has_context env = false ->
       RetroCamera.handleShoot hook env st = RetroCamera.setFlashActive true st)) /\
  (RetroCamera.ejectingPhoto (RetroCamera.handleShoot hook env st)
   <> RetroCamera.ejectingPhoto st ->
   exists video,
     UseCamera.videoRef hook = Some video /\
     UseCamera.isLoading hook = false /\
     RetroCamera.ejectingPhoto st = None /\
     RetroCamera.has_context env = true).
Proof.
  split.
  - intros video Hv Hl Hp. unfold RetroCamera.handleShoot.
    rewrite Hv, Hl, Hp. cbn [orb RetroCamera.is_some].
    split; intros Hc; rewrite Hc; reflexivity.
  - unfold RetroCamera.handleShoot.
    destruct (UseCamera.videoRef hook) as [video|]; [| intros Hd; contradiction].
    destruct (UseCamera.isLoading hook); cbn [orb]; [intros Hd; contradiction |].
    destruct (RetroCamera.ejectingPhoto st) as [p|] eqn:Hp; cbn [RetroCamera.is_some].
    + rewrite Hp. intros Hd; contradiction.
    + destruct (RetroCamera.has_context env).
      * intros _. exists video. repeat split.
      * cbn. rewrite Hp. intros Hd; contradiction.
Qed.

Lemma X6_capture_accepted_iff_witness :
  UseCamera.videoRef Sample.hookReady = Some (UseCamera.mkVideo 1280 720) /\
  UseCamera.isLoading Sample.hookReady = false /\
  RetroCamera.ejectingPhoto RetroCamera.initial = None /\
  RetroCamera.has_context Sample.env = true /\
  RetroCamera.lifecycle
    (RetroCamera.handleShoot Sample.hookReady Sample.env RetroCamera.initial)
  = RetroCamera.Ejecting.
Proof.
  destruct (X6_capture_accepted_iff Sample.hookReady Sample.env RetroCamera.initial)
    as (Hacc & _).
  destruct (Hacc (UseCamera.mkVideo 1280 720) eq_refl eq_refl eq_refl) as (Hok & _).
  split; [reflexivity | split; [reflexivity | split; [reflexivity | split; [reflexivity |]]]].
  rewrite (Hok eq_refl). reflexivity.
Defined.

(** X7. With [Math.random()] in [0,1) the tilt of a captured photo lies in
    [-2, 2). *)
Theorem X7_rotation_bounded (hook : UseCamera.State) (env : RetroCamera.ShootEnv)
        (st : RetroCamera.State) (p : PhotoData) :
  0 <= RetroCamera.random env -> RetroCamera.random env < 1 ->
  RetroCamera.ejectingPhoto st = None ->
  RetroCamera.ejectingPhoto (RetroCamera.handleShoot hook env st) = Some p ->
  -2 <= rotation p /\ rotation p < 2.
Proof.
  intros H0 H1 Hnone. unfold RetroCamera.handleShoot.
  destruct (UseCamera.videoRef hook) as [video|]; [| rewrite Hnone; discriminate].
  destruct (UseCamera.isLoading hook || RetroCamera.is_some (RetroCamera.ejectingPhoto st));
    [rewrite Hnone; discriminate |].
  destruct (RetroCamera.has_context env); cbn; [| rewrite Hnone; discriminate].
  intros Hp. injection Hp as <-. cbn [rotation]. split; lra.
Qed.

Lemma X7_rotation_bounded_witness :
  0 <= RetroCamera.random Sample.env /\ RetroCamera.random Sample.env < 1 /\
  exists p, RetroCamera.ejectingPhoto Sample.camEjecting = Some p /\
            -2 <= rotation p /\ rotation p < 2.
Proof.
  assert (H0 : 0 <= RetroCamera.random Sample.env) by (unfold Qle; simpl; lia).
  assert (H1 : RetroCamera.random Sample.env < 1) by (unfold Qlt; simpl; lia).
  split; [exact H0 | split; [exact H1 |]].
  eexists. split; [reflexivity |].
  exact (X7_rotation_bounded Sample.hookReady Sample.env RetroCamera.initial _
           H0 H1 eq_refl eq_refl).
Defined.

(** X8. A grab of the ejecting photo hands it over exactly when the eject
    delay has passed, a photo is pending and its element is mounted; the
    camera is then idle again.  Whenever nothing is handed over the camera
    state is untouched, so the pending photo is never dropped. *)
Theorem X8_drag_start_hands_over (photoRef : option DOMRect) (st : RetroCamera.State) :
  (forall p rect,
      RetroCamera.isEjected st = true ->
      RetroCamera.ejectingPhoto st = Some p ->
      photoRef = Some rect ->
      RetroCamera.handleDragStart photoRef st
      = (RetroCamera.mkState (RetroCamera.flashActive st) None false
                             (RetroCamera.selectedFilter st),
         Some (p, rect))) /\
  (forall p rect,
      snd (RetroCamera.handleDragStart photoRef st) = Some (p, rect) ->
      RetroCamera.isEjected st = true /\
      RetroCamera.ejectingPhoto st = Some p /\ photoRef = Some rect) /\
  (snd (RetroCamera.handleDragStart photoRef st) = None ->
   fst (RetroCamera.handleDragStart photoRef st) = st).
Proof.
  unfold RetroCamera.handleDragStart. split; [| split].
  - intros p rect He Hp ->. rewrite He, Hp. reflexivity.
  - intros p rect.
    destruct (RetroCamera.isEjected st); cbn [negb]; [| discriminate].
    destruct (RetroCamera.ejectingPhoto st) as [q|]; [| discriminate].
    destruct photoRef as [r|]; [| discriminate].
    cbn [snd]. intros Heq. injection Heq as -> ->. repeat split.
  - destruct (RetroCamera.isEjected st); cbn [negb]; [| reflexivity].
    destruct (RetroCamera.ejectingPhoto st) as [q|]; [| reflexivity].
    destruct photoRef as [r|]; [discriminate | reflexivity].
Qed.

Lemma X8_drag_start_hands_over_witness :
  RetroCamera.isEjected (RetroCamera.ejectTimeout Sample.camEjecting) = true /\
  snd (RetroCamera.handleDragStart (Some Sample.rect) Sample.camEjecting) = None /\
  fst (RetroCamera.handleDragStart (Some Sample.rect) Sample.camEjecting)
  = Sample.camEjecting /\
  RetroCamera.lifecycle
    (fst (RetroCamera.handleDragStart (Some Sample.rect)
            (RetroCamera.ejectTimeout Sample.camEjecting)))
  = RetroCamera.Idle.
Proof.
  destruct (X8_drag_start_hands_over (Some Sample.rect) Sample.camEjecting)
    as (_ & _ & Hnone).
  destruct (X8_drag_start_hands_over (Some Sample.rect)
              (RetroCamera.ejectTimeout Sample.camEjecting)) as (Hgrab & _ & _).
  split; [reflexivity | split; [reflexivity | split; [exact (Hnone eq_refl) |]]].
  rewrite (Hgrab _ Sample.rect eq_refl eq_refl eq_refl). reflexivity.
Defined.

(** X9. Once a photo is pending, no event of the page changes or replaces
    it (further captures, filter changes, timers, camera settling, wall
    events), except the grab that puts that very photo, with its fields
    unchanged but for the position, on top of the wall. *)
Theorem X9_pending_photo_kept `{Browser} (s : Page.State) (ev : Page.Event)
        (p : PhotoData) :
  RetroCamera.ejectingPhoto (Page.camera s) = Some p ->
  RetroCamera.ejectingPhoto (Page.camera (Page.step s ev)) = Some p \/
  (RetroCamera.ejectingPhoto (Page.camera (Page.step s ev)) = None /\
   exists rect,
     ev = Page.DragStart (Some rect) /\
     RetroCamera.isEjected (Page.camera s) = true /\
     App.photos (App.ui (Page.world (Page.step s ev)))
     = App.photos (App.ui (Page.world s))
       ++ [mkPhoto (id p) (url p) (timestamp p) (left rect) (top rect)
                   (rotation p) (isDeveloping p) (caption p) (filterType p)]).
Proof.
  intros Hp.
  destruct ev as [granted | f | env | | | photoRef | wev];
    cbn [Page.step Page.camera Page.world];
    try (left; exact Hp).
  - left. rewrite (shoot_with_pending _ _ _ p Hp). exact Hp.
  - unfold RetroCamera.handleDragStart.
    destruct (RetroCamera.isEjected (Page.camera s)) eqn:He; cbn [negb];
      [| left; exact Hp].
    rewrite Hp. destruct photoRef as [rect|]; [| left; exact Hp].
    right. cbn [Page.camera Page.world]. split; [reflexivity |].
    exists rect. split; [reflexivity | split; [reflexivity |]].
    cbn [App.step]. rewrite rerender_photos. apply takePaper_photos.
Qed.

Lemma X9_pending_photo_kept_witness :
  exists p,
    RetroCamera.ejectingPhoto Sample.camEjecting = Some p /\
    RetroCamera.ejectingPhoto
      (Page.camera (@Page.step DemoBrowser.demo
                      (Page.mkPage Sample.hookReady Sample.camEjecting
                                   (App.mkWorld App.initial emptyStorage))
                      (Page.SelectFilter sepia))) = Some p /\
    filterType p = normal.
Proof.
  eexists. split; [reflexivity |].
  destruct (@X9_pending_photo_kept DemoBrowser.demo
              (Page.mkPage Sample.hookReady Sample.camEjecting
                           (App.mkWorld App.initial emptyStorage))
              (Page.SelectFilter sepia) _ eq_refl) as [Hkeep | (_ & rect & Hev & _)].
  - split; [exact Hkeep | reflexivity].
  - discriminate Hev.
Defined.

(** X10. End to end: from an idle camera with a playing video and a
    context, a capture, the eject delay, a grab and a pointer move to [e]
    leave the camera idle and the new photo on top of the wall at
    [e - (width/2, height/4)], still developing, with the filter selected at
    capture; a grab before the eject delay changes nothing.  The id of the new
    photo must not be on the wall already. *)
Theorem X10_capture_to_wall `{Browser} (s : Page.State) (video : UseCamera.Video)
        (env : RetroCamera.ShootEnv) (rect : DOMRect) (e : App.Pointer) :
  UseCamera.videoRef (Page.hook s) = Some video ->
  UseCamera.isLoading (Page.hook s) = false ->
  RetroCamera.ejectingPhoto (Page.camera s) = None ->
  RetroCamera.has_context env = true ->
  (forall q, In q (App.photos (App.ui (Page.world s))) ->
             id q <> RetroCamera.toString (RetroCamera.now_id env)) ->
  let s1 := Page.step s (Page.Shoot env) in
  let s' := Page.run s [Page.Shoot env; Page.EjectTimeout;
                        Page.DragStart (Some rect); Page.Wall (App.MouseMove e)] in
  Page.step s1 (Page.DragStart (Some rect)) = s1 /\
  RetroCamera.lifecycle (Page.camera s') = RetroCamera.Idle /\
  App.photos (App.ui (Page.world s'))
  = App.photos (App.ui (Page.world s))
    ++ [mkPhoto (RetroCamera.toString (RetroCamera.now_id env))
                (RetroCamera.toDataURL env video (RetroCamera.crop video))
                (inject_Z (RetroCamera.now_timestamp env))
                (App.clientX e - width rect / 2)
                (App.clientY e - height rect / 4)
                (RetroCamera.random env * 4 - 2) true None
                (RetroCamera.selectedFilter (Page.camera s))].
Proof.
  intros Hv Hl Hp Hc Hfresh.
  destruct (capture_grab_drag s video env rect e Hv Hl Hp Hc Hfresh)
    as (H1 & _ & H3 & H4).
  split; [exact H1 | split; [exact H3 | exact H4]].
Qed.

Lemma X10_capture_to_wall_witness :
  let s := Page.mkPage Sample.hookReady RetroCamera.initial
                       (App.mkWorld App.initial emptyStorage) in
  let s' := @Page.run DemoBrowser.demo s
              [Page.Shoot Sample.env; Page.EjectTimeout;
               Page.DragStart (Some Sample.rect); Page.Wall (App.MouseMove Sample.pointer)] in
  RetroCamera.has_context Sample.env = true /\
  RetroCamera.lifecycle (Page.camera s') = RetroCamera.Idle /\
  List.length (App.photos (App.ui (Page.world s'))) = 1%nat.
Proof.
  cbn zeta.
  destruct (@X10_capture_to_wall DemoBrowser.demo
              (Page.mkPage Sample.hookReady RetroCamera.initial
                           (App.mkWorld App.initial emptyStorage))
              (UseCamera.mkVideo 1280 720) Sample.env Sample.rect Sample.pointer
              eq_refl eq_refl eq_refl eq_refl)
    as (_ & Hidle & Hwall).
  - intros q [].
  - split; [reflexivity | split; [exact Hidle |]].
    rewrite Hwall. reflexivity.
Defined.

(** ** App.tsx: grabbing, dragging, releasing *)

Section Dragging.

Context `{Browser}.
Import App.

Lemma mouseDown_result (e : Pointer) (st : State) (l1 l2 : list PhotoData)
      (p : PhotoData) :
  photos st = l1 ++ p :: l2 ->
  NoDup (map id (photos st)) ->
  handleMouseDown e (id p) st
  = Some (mkState (l1 ++ l2 ++ [p]) (Some (id p))
                  (mkCoord (clientX e - x p) (clientY e - y p))
                  (showInstructions st) (notification st)).
Proof.
  intros Hsplit Hnd. rewrite Hsplit in Hnd.
  pose proof (unique_id_elsewhere l1 l2 p Hnd) as Hne.
  unfold handleMouseDown. rewrite Hsplit.
  rewrite find_member by (intros q Hq; apply Hne, in_or_app; left; exact Hq).
  cbn [photos setPhotos setDragOffset setDraggingPhotoId draggingPhotoId dragOffset
       showInstructions notification].
  rewrite Hsplit, filter_member by exact Hne.
  rewrite app_assoc. reflexivity.
Qed.

Lemma map_other_ids (d : string) (g : PhotoData -> PhotoData) (l : list PhotoData) :
  (forall q, In q l -> id q <> d) ->
  map (fun photo => if String.eqb (id photo) d then g photo else photo) l = l.
Proof.
  intros Hne. rewrite <- (map_id l) at 2. apply map_ext_in. intros q Hq.
  destruct (String.eqb_spec (id q) d) as [Heq|_]; [| reflexivity].
  destruct (Hne q Hq Heq).
Qed.

Lemma truthy_nonempty (s : string) : s <> EmptyString -> truthy s = true.
Proof.
  intros Hs. unfold truthy.
  destruct (String.eqb_spec s EmptyString); [contradiction | reflexivity].
Qed.

Lemma find_absent (i : string) (l : list PhotoData) :
  (forall q, In q l -> id q <> i) ->
  find (fun p => String.eqb (id p) i) l = None.
Proof.
  induction l as [|a l IH]; intros Hne; [reflexivity |].
  cbn [find]. destruct (String.eqb_spec (id a) i) as [Heq|_].
  - destruct (Hne a (or_introl eq_refl) Heq).
  - apply IH. intros q Hq. apply Hne. right. exact Hq.
Qed.

End Dragging.

(** X11. Grabbing a photo of a wall with unique ids at [e0] and moving the
    pointer to [e] brings the photo to the top and moves it by exactly the
    pointer's displacement [e - e0]; the other photos keep their place and
    order, and the photo keeps every other field. *)
Theorem X11_grab_then_drag `{Browser} (w : App.World) (e0 e : App.Pointer)
        (p : PhotoData) (l1 l2 : list PhotoData) :
  App.photos (App.ui w) = l1 ++ p :: l2 ->
  NoDup (map id (App.photos (App.ui w))) ->
  id p <> EmptyString ->
  exists q,
    App.photos (App.ui (App.run w [App.MouseDown e0 (id p); App.MouseMove e]))
    = l1 ++ l2 ++ [q] /\
    same_print p q /\
    x q == x p + (App.clientX e - App.clientX e0) /\
    y q == y p + (App.clientY e - App.clientY e0).
Proof.
  intros Hsplit Hnd Hid.
  exists (mkPhoto (id p) (url p) (timestamp p)
                  (App.clientX e - (App.clientX e0 - x p))
                  (App.clientY e - (App.clientY e0 - y p))
                  (rotation p) (isDeveloping p) (caption p) (filterType p)).
  split; [| split; [unfold same_print; cbn; repeat split | split; cbn [x y]; ring]].
  cbn [App.run fold_left App.step].
  rewrite (mouseDown_result e0 (App.ui w) l1 l2 p Hsplit Hnd).
  unfold App.handleMouseMove.
  cbn [App.rerender App.ui App.draggingPhotoId App.dragOffset App.photos cx cy].
  rewrite (truthy_nonempty _ Hid).
  cbn [App.rerender App.ui App.photos App.setPhotos].
  rewrite Hsplit in Hnd. pose proof (unique_id_elsewhere l1 l2 p Hnd) as Hne.
  rewrite app_assoc, map_app. cbn [map]. rewrite String.eqb_refl.
  rewrite map_other_ids by exact Hne.
  rewrite <- app_assoc. reflexivity.
Qed.

Lemma X11_grab_then_drag_witness :
  App.photos (App.ui (App.mkWorld Sample.wallABC emptyStorage))
  = [Sample.photoA] ++ Sample.photoB :: [Sample.photoC] /\
  id Sample.photoB <> EmptyString /\
  exists q,
    App.photos (App.ui (@App.run DemoBrowser.demo
                          (App.mkWorld Sample.wallABC emptyStorage)
                          [App.MouseDown Sample.pointer (id Sample.photoB);
                           App.MouseMove (App.mkPointer 130 190)]))
    = [Sample.photoA] ++ [Sample.photoC] ++ [q] /\
    x q == 330 /\ y q == 70.
Proof.
  assert (Hnd : NoDup (map id (App.photos (App.ui (App.mkWorld Sample.wallABC emptyStorage))))).
  { cbn. repeat constructor; cbn; intuition discriminate. }
  assert (Hid : id Sample.photoB <> EmptyString) by discriminate.
  split; [reflexivity | split; [exact Hid |]].
  destruct (@X11_grab_then_drag DemoBrowser.demo
              (App.mkWorld Sample.wallABC emptyStorage) Sample.pointer
              (App.mkPointer 130 190) Sample.photoB [Sample.photoA] [Sample.photoC]
              eq_refl Hnd Hid) as (q & Hwall & _ & Hx & Hy).
  exists q. split; [exact Hwall | split].
  - rewrite Hx. reflexivity.
  - rewrite Hy. reflexivity.
Defined.

(** X12. After the pointer is released, pointer moves change nothing: not
    the wall, not the drag state, not the store. *)
Theorem X12_moves_after_release_ignored `{Browser} (w : App.World)
        (moves : list App.Pointer) :
  App.run (App.step w App.MouseUp) (map App.MouseMove moves)
  = App.step w App.MouseUp /\
  App.draggingPhotoId (App.ui (App.step w App.MouseUp)) = None /\
  App.photos (App.ui (App.step w App.MouseUp)) = App.photos (App.ui w) /\
  App.storage (App.step w App.MouseUp) = App.storage w.
Proof.
  split; [| repeat split].
  induction moves as [|e moves IH]; [reflexivity |].
  cbn [map App.run fold_left]. exact IH.
Qed.

(** X13. A pointer move never adds, removes or reorders photos and never
    touches a photo other than the one being dragged: photo by photo, the wall
    after the move has the same fields but for the position, and a photo
    whose id is not the dragged id is unchanged. *)
Theorem X13_move_touches_only_dragged `{Browser} (w : App.World) (e : App.Pointer) :
  Forall2 (fun p q => same_print p q /\
                      (App.draggingPhotoId (App.ui w) <> Some (id p) -> q = p))
          (App.photos (App.ui w))
          (App.photos (App.ui (App.step w (App.MouseMove e)))).
Proof.
  assert (Hsame : forall l : list PhotoData,
             Forall2 (fun p q => same_print p q /\
                                 (App.draggingPhotoId (App.ui w) <> Some (id p) -> q = p))
                     l l).
  { induction l as [|a l IH]; constructor;
      [split; [apply same_print_refl | reflexivity] | exact IH]. }
  cbn [App.step]. unfold App.handleMouseMove.
  destruct (App.draggingPhotoId (App.ui w)) as [d|]; [| apply Hsame].
  destruct (truthy d); [| apply Hsame].
  rewrite rerender_photos. cbn [App.photos App.setPhotos].
  induction (App.photos (App.ui w)) as [|a l IH]; cbn [map]; constructor; [| exact IH].
  destruct (String.eqb_spec (id a) d) as [Heq | Hne].
  - split; [unfold same_print; cbn; repeat split |].
    intros Hd. exfalso. apply Hd. rewrite Heq. reflexivity.
  - split; [apply same_print_refl | reflexivity].
Qed.

(** X14. A grab or a deletion aimed at an id that no photo of the wall
    carries changes nothing: the grab returns early and leaves the whole state
    and the store as they were; the deletion leaves the wall as it was. *)
Theorem X14_unknown_id_ignored `{Browser} (w : App.World) (e : App.Pointer)
        (i : string) :
  (forall q, In q (App.photos (App.ui w)) -> id q <> i) ->
  App.step w (App.MouseDown e i) = w /\
  App.photos (App.ui (App.step w (App.DeletePhoto i))) = App.photos (App.ui w).
Proof.
  intros Hne. split.
  - cbn [App.step]. unfold App.handleMouseDown.
    rewrite (find_absent i _ Hne). reflexivity.
  - cbn [App.step]. rewrite rerender_photos.
    cbn [App.handleDeletePhoto App.photos App.setPhotos].
    apply filter_other_ids. exact Hne.
Qed.

Lemma X14_unknown_id_ignored_witness :
  (forall q, In q (App.photos Sample.wallABC) -> id q <> "1600000000000") /\
  @App.step DemoBrowser.demo (App.mkWorld Sample.wallABC emptyStorage)
            (App.MouseDown Sample.pointer "1600000000000")
  = App.mkWorld Sample.wallABC emptyStorage.
Proof.
  assert (Hne : forall q, In q (App.photos Sample.wallABC) -> id q <> "1600000000000").
  { intros q [<- | [<- | [<- | []]]]; discriminate. }
  split; [exact Hne |].
  exact (proj1 (@X14_unknown_id_ignored DemoBrowser.demo
                  (App.mkWorld Sample.wallABC emptyStorage) Sample.pointer
                  "1600000000000" Hne)).
Defined.

(** X15. After a deletion no photo with the deleted id is left and every
    other photo is still there; in a wall with unique ids the photo is cut out
    of its place and the rest keeps its order; the drag state is not reset. *)
Theorem X15_delete_removes_photo `{Browser} (w : App.World) (i : string) :
  let w' := App.step w (App.DeletePhoto i) in
  (forall q, In q (App.photos (App.ui w')) <->
             In q (App.photos (App.ui w)) /\ id q <> i) /\
  (forall l1 p l2,
      App.photos (App.ui w) = l1 ++ p :: l2 ->
      NoDup (map id (App.photos (App.ui w))) ->
      id p = i ->
      App.photos (App.ui w') = l1 ++ l2) /\
  App.draggingPhotoId (App.ui w') = App.draggingPhotoId (App.ui w) /\
  App.dragOffset (App.ui w') = App.dragOffset (App.ui w).
Proof.
  cbn zeta. cbn [App.step]. rewrite rerender_photos.
  cbn [App.handleDeletePhoto App.photos App.setPhotos App.rerender App.ui
       App.draggingPhotoId App.dragOffset].
  split; [| split; [| split; reflexivity]].
  - intros q. rewrite filter_In. split; intros (Hin & Hid); (split; [exact Hin |]).
    + intros Heq. rewrite Heq, String.eqb_refl in Hid. discriminate.
    + destruct (String.eqb_spec (id q) i); [contradiction | reflexivity].
  - intros l1 p l2 Hsplit Hnd <-. rewrite Hsplit in Hnd |- *.
    apply filter_member. apply (unique_id_elsewhere l1 l2 p Hnd).
Qed.

Lemma X15_delete_removes_photo_witness :
  App.photos (App.ui (@App.step DemoBrowser.demo
                        (App.mkWorld Sample.wallABC emptyStorage)
                        (App.DeletePhoto (id Sample.photoB))))
  = [Sample.photoA] ++ [Sample.photoC].
Proof.
  destruct (@X15_delete_removes_photo DemoBrowser.demo
              (App.mkWorld Sample.wallABC emptyStorage) (id Sample.photoB))
    as (_ & Hcut & _).
  apply (Hcut [Sample.photoA] Sample.photoB [Sample.photoC]); [reflexivity | | reflexivity].
  cbn. repeat constructor; cbn; intuition discriminate.
Defined.

(** ** App.tsx: the wall and the store *)

Section StoreInvariant.

Context `{B : Browser}.
Import App.





Lemma step_other_keys (w : World) (ev : Event) (k : string) :
  k <> STORAGE_KEY -> storage (step w ev) k = storage w k.
Proof.
  intros Hk.
  assert (Hsave : forall l ls, save_effect l ls k = ls k).
  { intros l ls. unfold save_effect, setItem, try_catch.
    destruct (0 <? List.length l)%nat; [| reflexivity].
    destruct (quota_exceeded ls STORAGE_KEY (serialize l)); [reflexivity |].
    unfold putItem. destruct (String.eqb_spec k STORAGE_KEY); [contradiction | reflexivity]. }
  destruct ev as [photo rect | e i | e | | i | confirmed | ]; cbn [step rerender storage];
    try apply Hsave; try reflexivity.
  - destruct (handleMouseDown e i (ui w)); [apply Hsave | reflexivity].
  - destruct (handleMouseMove e (ui w)); [apply Hsave | reflexivity].
  - destruct confirmed; [| reflexivity].
    cbn [handleClear rerender storage]. rewrite Hsave.
    unfold removeItem. destruct (String.eqb_spec k STORAGE_KEY); [contradiction | reflexivity].
Qed.

End StoreInvariant.







(** X19. No wall event reads or writes any key of [localStorage] other
    than ["retro-snap-photos"]: after any run every other key holds what it
    held. *)
Theorem X19_other_keys_untouched `{B : Browser} (w : App.World)
        (evs : list App.Event) (k : string) :
  k <> App.STORAGE_KEY ->
  App.storage (App.run w evs) k = App.storage w k.
Proof.
  intros Hk. revert w.
  induction evs as [|ev evs IH]; intros w; [reflexivity |].
  cbn [App.run fold_left]. fold (App.run (App.step w ev) evs).
  rewrite IH. apply step_other_keys. exact Hk.
Qed.

Lemma X19_other_keys_untouched_witness :
  "theme" <> App.STORAGE_KEY /\
  App.storage (@App.run DemoBrowser.demo
                 (App.mkWorld App.initial (putItem emptyStorage "theme" "dark"))
                 [App.TakePaper Sample.photoA Sample.rect; App.Clear true])
              "theme"
  = Some "dark".
Proof.
  assert (Hk : "theme" <> App.STORAGE_KEY) by discriminate.
  split; [exact Hk |].
  rewrite (@X19_other_keys_untouched DemoBrowser.demo _ _ "theme" Hk). reflexivity.
Defined.

Section UiAlone.

Import App.

Lemma step_ui (B1 B2 : Browser) (w1 w2 : World) (ev : Event) :
  ui w1 = ui w2 -> ui (@step B1 w1 ev) = ui (@step B2 w2 ev).
Proof.
  intros Hui.
  destruct ev as [photo rect | e i | e | | i | confirmed | ];
    cbn [step rerender ui]; rewrite <- ?Hui; try reflexivity.
  - destruct (handleMouseDown e i (ui w1)); [reflexivity | exact Hui].
  - destruct (handleMouseMove e (ui w1)); [reflexivity | exact Hui].
  - destruct confirmed; [reflexivity | exact Hui].
Qed.

End UiAlone.

(** X20. The wall in memory never depends on the store or on the browser:
    the same events from the same component state give the same component
    state, whatever [localStorage] holds, whether writes succeed, and whatever
    [JSON] does. *)
Theorem X20_ui_independent_of_store (B1 B2 : Browser) (st : App.State)
        (ls1 ls2 : LocalStorage) (evs : list App.Event) :
  App.ui (@App.run B1 (App.mkWorld st ls1) evs)
  = App.ui (@App.run B2 (App.mkWorld st ls2) evs).
Proof.
  assert (Hgen : forall w1 w2, App.ui w1 = App.ui w2 ->
                               App.ui (@App.run B1 w1 evs) = App.ui (@App.run B2 w2 evs)).
  { induction evs as [|ev evs IH]; intros w1 w2 Hui; [exact Hui |].
    cbn [App.run fold_left]. apply IH. apply step_ui. exact Hui. }
  apply Hgen. reflexivity.
Qed.

(** X21. Clearing the wall: when the user declines the prompt nothing
    changes; when the user confirms, the wall is empty, the key is removed from
    the store, the notice "Wall cleared." is shown, and a reload finds an empty
    wall, whatever the browser. *)
Theorem X21_clear_wall `{B : Browser} (w : App.World) :
  App.step w (App.Clear false) = w /\
  let w' := App.step w (App.Clear true) in
  App.photos (App.ui w') = [] /\
  getItem (App.storage w') App.STORAGE_KEY = None /\
  App.notification (App.ui w') = Some ("Wall cleared.", App.success) /\
  App.wall_after_load (App.storage w') = [].
Proof.
  split; [reflexivity |]. cbn zeta.
  destruct (clear_removes_snapshot w) as (Hwall & Hkey).
  split; [exact Hwall | split; [exact Hkey | split; [reflexivity |]]].
  unfold App.wall_after_load, App.load_effect, App.load_body.
  rewrite Hkey. reflexivity.
Qed.

(** X22. When the store refuses every write, the wall still follows the
    events in memory (X20), and the store is left exactly as it was by every
    run in which the wall is not cleared: the refusal is swallowed. *)
Theorem X22_refused_writes_swallowed `{B : Browser} (w : App.World)
        (evs : list App.Event) :
  always_full B ->
  Forall (fun ev => ev <> App.Clear true) evs ->
  App.storage (App.run w evs) = App.storage w.
Proof.
  intros Hfull Hev. revert w.
  assert (Hsave : forall l ls, App.save_effect l ls = ls).
  { intros l ls. unfold App.save_effect, setItem, try_catch.
    destruct (0 <? List.length l)%nat; [| reflexivity].
    rewrite Hfull. reflexivity. }
  induction Hev as [|ev evs Hne _ IH]; intros w; [reflexivity |].
  cbn [App.run fold_left]. fold (App.run (App.step w ev) evs). rewrite IH.
  destruct ev as [photo rect | e i | e | | i | confirmed | ];
    cbn [App.step App.rerender App.storage]; try apply Hsave; try reflexivity.
  - destruct (App.handleMouseDown e i (App.ui w)); [apply Hsave | reflexivity].
  - destruct (App.handleMouseMove e (App.ui w)); [apply Hsave | reflexivity].
  - destruct confirmed; [destruct Hne; reflexivity | reflexivity].
Qed.

Lemma X22_refused_writes_swallowed_witness :
  always_full fullBrowser /\
  Forall (fun ev => ev <> App.Clear true)
         [App.TakePaper Sample.photoA Sample.rect; App.MouseMove Sample.pointer] /\
  getItem (App.storage (@App.run fullBrowser (App.mkWorld App.initial emptyStorage)
                          [App.TakePaper Sample.photoA Sample.rect;
                           App.MouseMove Sample.pointer]))
          App.STORAGE_KEY = None /\
  List.length (App.photos (App.ui (@App.run fullBrowser
                          (App.mkWorld App.initial emptyStorage)
                          [App.TakePaper Sample.photoA Sample.rect;
                           App.MouseMove Sample.pointer]))) = 1%nat.
Proof.
  assert (Hfull : always_full fullBrowser) by (intros ls k v; reflexivity).
  assert (Hev : Forall (fun ev => ev <> App.Clear true)
                  [App.TakePaper Sample.photoA Sample.rect; App.MouseMove Sample.pointer])
    by (repeat constructor; discriminate).
  split; [exact Hfull | split; [exact Hev | split; [| reflexivity]]].
  rewrite (@X22_refused_writes_swallowed fullBrowser _ _ Hfull Hev). reflexivity.
Defined.

(** ** App.tsx: what loading does to a record *)

Lemma get_set_prop_other (props : list (string * JSON)) (k0 k : string) (v : JSON) :
  k <> k0 -> get_prop (set_prop props k0 v) k = get_prop props k.
Proof.
  intros Hk. induction props as [|[k' v'] rest IH]; cbn [set_prop get_prop].
  - destruct (String.eqb_spec k0 k); [congruence | reflexivity].
  - destruct (String.eqb_spec k' k0) as [-> | Hne]; cbn [get_prop].
    + destruct (String.eqb_spec k0 k); [congruence | reflexivity].
    + destruct (String.eqb k' k); [reflexivity | exact IH].
Qed.

Lemma set_prop_idem (props : list (string * JSON)) (k : string) (v : JSON) :
  set_prop (set_prop props k v) k v = set_prop props k v.
Proof.
  induction props as [|[k' v'] rest IH]; cbn [set_prop].
  - rewrite String.eqb_refl. reflexivity.
  - destruct (String.eqb k' k) eqn:Hk; cbn [set_prop]; rewrite Hk;
      [reflexivity | f_equal; exact IH].
Qed.

(** X23. Loading keeps every element of the stored array, in order,
    photo or not: each becomes an object whose [isDeveloping] is [false] and
    whose every other key reads as in the stored element; doing it twice is
    the same as doing it once. *)
Theorem X23_load_keeps_other_fields `{B : Browser} (ls : LocalStorage)
        (saved : string) (items : list JSON) :
  getItem ls App.STORAGE_KEY = Some saved ->
  truthy saved = true ->
  JSON_parse saved = Ok (JArr items) ->
  List.length (App.wall_after_load ls) = List.length items /\
  Forall2 (fun o o' =>
             o' = App.developed o /\
             stored_flag o' = Some (JBool false) /\
             (forall k, k <> "isDeveloping" ->
                        get_prop (own_props o') k = get_prop (own_props o) k) /\
             App.developed o' = o')
          items (App.wall_after_load ls).
Proof.
  intros Hget Htruthy Hparse.
  assert (Hload : App.wall_after_load ls = map App.developed items).
  { unfold App.wall_after_load.
    replace (App.load_effect ls) with (Some (map App.developed items)); [reflexivity |].
    symmetry. apply load_effect_some. exists saved, items. repeat split; assumption. }
  rewrite Hload. split; [apply length_map |].
  clear. induction items as [|o items IH]; cbn [map]; constructor; [| exact IH].
  split; [reflexivity | split; [apply developed_flag | split]].
  - intros k Hk. unfold App.developed. cbn [own_props].
    apply get_set_prop_other. exact Hk.
  - unfold App.developed. cbn [own_props]. rewrite set_prop_idem. reflexivity.
Qed.

Lemma X23_load_keeps_other_fields_witness :
  let ls := putItem emptyStorage App.STORAGE_KEY
                    (DemoBrowser.print (JArr [obj_of_photo Sample.photoA])) in
  getItem ls App.STORAGE_KEY
  = Some (DemoBrowser.print (JArr [obj_of_photo Sample.photoA])) /\
  List.length (@App.wall_after_load DemoBrowser.demo ls) = 1%nat.
Proof.
  cbn zeta. split; [reflexivity |].
  destruct (@X23_load_keeps_other_fields DemoBrowser.demo
              (putItem emptyStorage App.STORAGE_KEY
                       (DemoBrowser.print (JArr [obj_of_photo Sample.photoA])))
              (DemoBrowser.print (JArr [obj_of_photo Sample.photoA]))
              [obj_of_photo Sample.photoA]) as (Hlen & _).
  - reflexivity.
  - vm_compute. reflexivity.
  - vm_compute. reflexivity.
  - exact Hlen.
Defined.

(** ** RetroCamera.tsx: the crop by orientation *)

(** X24. For a landscape or square frame the crop spans the full height
    and starts at the top; for a portrait or square frame it spans the full
    width and starts at the left. *)
Theorem X24_crop_by_orientation (w h : number) :
  let c := RetroCamera.crop (UseCamera.mkVideo w h) in
  (h <= w -> RetroCamera.videoSize c == h /\ RetroCamera.startY c == 0) /\
  (w <= h -> RetroCamera.videoSize c == w /\ RetroCamera.startX c == 0).
Proof.
  cbn zeta. unfold RetroCamera.crop.
  cbn [RetroCamera.videoSize RetroCamera.startX RetroCamera.startY
       UseCamera.videoWidth UseCamera.videoHeight].
  split; intros Hle.
  - pose proof (Q.min_r w h Hle) as Hmin. split; [exact Hmin |].
    rewrite Hmin. field.
  - pose proof (Q.min_l w h Hle) as Hmin. split; [exact Hmin |].
    rewrite Hmin. field.
Qed.

Lemma X24_crop_by_orientation_witness :
  480 <= 640 /\
  RetroCamera.startY (RetroCamera.crop (UseCamera.mkVideo 640 480)) == 0.
Proof.
  assert (H : 480 <= 640) by (unfold Qle; simpl; lia).
  split; [exact H |].
  exact (proj2 (proj1 (X24_crop_by_orientation 640 480) H)).
Defined.

(** ** App.tsx: the instructions *)

Section Instructions.

Context `{B : Browser}.
Import App.

Lemma step_keeps_hidden (w : World) (ev : Event) :
  showInstructions (ui w) = false -> showInstructions (ui (step w ev)) = false.
Proof.
  intros Hh.
  destruct ev as [photo rect | e i | e | | i | confirmed | ];
    cbn [step rerender ui]; try exact Hh.
  - unfold handleTakePaper. cbn. rewrite Hh. exact Hh.
  - unfold handleMouseDown. destruct (find _ _); [exact Hh | exact Hh].
  - unfold handleMouseMove. destruct (draggingPhotoId (ui w)) as [d|]; [| exact Hh].
    destruct (truthy d); exact Hh.
  - destruct confirmed; exact Hh.
Qed.

Lemma takePaper_hides (w : World) (photo : PhotoData) (rect : DOMRect) :
  showInstructions (ui (step w (TakePaper photo rect))) = false.
Proof.
  cbn [step rerender ui]. unfold handleTakePaper.
  cbn [showInstructions setDragOffset setDraggingPhotoId setPhotos].
  destruct (showInstructions (ui w)) eqn:Hs; cbn; [reflexivity | exact Hs].
Qed.

End Instructions.

(** X25. The instructions are dismissed by the first hand-off and never
    come back: after any run that contains a hand-off, or that starts with the
    instructions hidden, they are hidden. *)
Theorem X25_instructions_stay_hidden `{B : Browser} (w : App.World)
        (evs : list App.Event) :
  App.showInstructions (App.ui w) = false \/
  (exists photo rect, In (App.TakePaper photo rect) evs) ->
  App.showInstructions (App.ui (App.run w evs)) = false.
Proof.
  revert w. induction evs as [|ev evs IH]; intros w Hcase.
  - destruct Hcase as [Hh | (photo & rect & [])]. exact Hh.
  - cbn [App.run fold_left]. apply IH.
    destruct Hcase as [Hh | (photo & rect & [Heq | Hin])].
    + left. apply step_keeps_hidden. exact Hh.
    + left. subst ev. apply takePaper_hides.
    + right. exists photo, rect. exact Hin.
Qed.

Lemma X25_instructions_stay_hidden_witness :
  App.showInstructions App.initial = true /\
  App.showInstructions
    (App.ui (@App.run DemoBrowser.demo (App.mkWorld App.initial emptyStorage)
               [App.TakePaper Sample.photoA Sample.rect;
                App.DeletePhoto (id Sample.photoA); App.Clear true]))
  = false.
Proof.
  split; [reflexivity |].
  apply (@X25_instructions_stay_hidden DemoBrowser.demo).
  right. exists Sample.photoA, Sample.rect. left. reflexivity.
Defined.

(** ** useCamera.ts: the hook across attempts *)

Lemma startCamera_mounted (o : option UseCamera.Video) (st : UseCamera.State) :
  UseCamera.videoRef st <> None ->
  UseCamera.videoRef (UseCamera.startCamera o st) <> None.
Proof.
  intros Hm. unfold UseCamera.startCamera.
  destruct o as [v|]; cbn [UseCamera.videoRef]; [| exact Hm].
  destruct (UseCamera.videoRef st); [discriminate | contradiction].
Qed.

Lemma attempts_mounted (outcomes : list (option UseCamera.Video)) :
  forall st, UseCamera.videoRef st <> None ->
             UseCamera.videoRef
               (fold_left (fun st o => UseCamera.startCamera o st) outcomes st) <> None.
Proof.
  induction outcomes as [|o outcomes IH]; intros st Hm; [exact Hm |].
  cbn [fold_left]. apply IH. apply startCamera_mounted. exact Hm.
Qed.

(** X26. With the video element mounted, after any number of camera
    requests have settled the hook is no longer loading, the element is still
    mounted, and the error reflects the last request alone: it is set exactly
    when that request was rejected, so a granted retry clears it and the
    element then plays the granted stream. *)
Theorem X26_hook_reflects_last_attempt (v0 : UseCamera.Video)
        (outcomes : list (option UseCamera.Video)) (last : option UseCamera.Video) :
  let st := fold_left (fun st o => UseCamera.startCamera o st) (outcomes ++ [last])
                      (UseCamera.initial (Some v0)) in
  UseCamera.isLoading st = false /\
  UseCamera.videoRef st <> None /\
  (UseCamera.error st = None <-> last <> None) /\
  (forall v, last = Some v -> UseCamera.videoRef st = Some v).
Proof.
  cbn zeta. rewrite fold_left_app. cbn [fold_left].
  set (st := fold_left _ outcomes _).
  assert (Hm : UseCamera.videoRef st <> None).
  { apply attempts_mounted. discriminate. }
  split; [destruct last; reflexivity |].
  split; [apply startCamera_mounted; exact Hm |].
  split.
  - destruct last as [v|]; cbn; split; intros Hx; try reflexivity; try discriminate.
    contradiction.
  - intros v ->. cbn. destruct (UseCamera.videoRef st); [reflexivity | contradiction].
Qed.
